(** * The draw-auction bot of pt-v5-autotasks: decision logic and dispatch

    A shallow embedding of the two versions of the library's draw-auction
    module found in the repository,

    - [Part000]: the RngWitnet start-draw / award-draw version
      (src/unnamed/part_000), which carries the forced-award override;
    - [DrawAuctionTs]: the start-draw / finish-draw version
      (src/packages/library/src/drawAuction.ts), which provides for the
      RngWitnet and the RngBlockhash backends, buffers its gas estimates,
      and whose start-draw path calls an estimator that the file does not
      define.

    JavaScript numbers are IEEE 754 binary64 values ([PrimFloat.float]),
    ethers BigNumbers are integers ([Z]), objects live in a store and are
    passed by reference, and the asynchronous functions are written in a
    state-and-exception monad whose state is that store together with the
    trace of the calls made to the external collaborators. *)

From Stdlib Require Import ZArith List String Bool Lia Floats.
Import ListNotations.

Local Open Scope string_scope.
Local Open Scope list_scope.

(** ** JavaScript numbers *)

Module JS.

Definition number := float.

(** [x - y] on numbers. *)
Definition sub (x y : number) : number := PrimFloat.sub x y.

(** [x + y] on numbers. *)
Definition add (x y : number) : number := PrimFloat.add x y.

(** [x > y] on numbers: false as soon as one side is NaN. *)
Definition gt (x y : number) : bool := PrimFloat.ltb y x.

(** [x === y] on numbers: NaN differs from itself, +0 equals -0. *)
Definition strict_eq (x y : number) : bool := PrimFloat.eqb x y.

(** [Number(b)] for an ethers BigNumber [b]: the object has no [valueOf] of
    its own, so the conversion goes through [toString()], the decimal
    numeral, which is read back as the nearest binary64 value (ties to
    even, overflow to an infinity). *)
Definition NumberOfBigNumber (z : Z) : number :=
  SF2Prim (binary_normalize prec emax z 0%Z false).

(** The number denoted by an integer literal of the program text. *)
Definition of_int (z : Z) : number :=
  SF2Prim (binary_normalize prec emax z 0%Z false).

End JS.

(** ** Values, objects and the store

    The transaction-parameter objects are ordinary JavaScript objects: an
    ordered list of own properties (insertion order, which is the order
    [Object.values] follows), held in a store and handed around by
    reference. *)

Inductive jsval : Type :=
| VBig (z : Z)          (* an ethers BigNumber *)
| VStr (s : string)     (* a string: addresses *)
| VUndefined.

Definition object := list (string * jsval).

Definition loc := nat.

(** [o.k]: the property's value, [undefined] when [o] has no such property. *)
Fixpoint obj_get (k : string) (o : object) : jsval :=
  match o with
  | [] => VUndefined
  | (k', v) :: o' => if String.eqb k k' then v else obj_get k o'
  end.

(** [delete o.k]. *)
Fixpoint obj_delete (k : string) (o : object) : object :=
  match o with
  | [] => []
  | (k', v) :: o' =>
      if String.eqb k k' then obj_delete k o' else (k', v) :: obj_delete k o'
  end.

(** [Object.values(o)]. *)
Definition obj_values (o : object) : list jsval := map snd o.

(** [Object.keys(o)]. *)
Definition obj_keys (o : object) : list string := map fst o.

(** Replaces the object at address [l]; an address outside the store is left
    alone (no reference of the program points there). *)
Fixpoint store_set (h : list object) (l : loc) (o : object) : list object :=
  match h, l with
  | [], _ => []
  | _ :: h', O => o :: h'
  | x :: h', S l' => x :: store_set h' l' o
  end.

(** ** Contracts, calls and the external collaborators *)

Record Contract : Type := { address : string }.

(** A contract call as ethers builds it from
    [contract.<kind>.<fn>(...args, { value })]: the target, the function, the
    positional arguments and the overrides' [value] ([None] when the call is
    made without an overrides object). [populateTransaction] encodes exactly
    these into the transaction's [to], [data] and [value]. *)
Record call : Type := {
  call_to : string;
  call_fn : string;
  call_args : list jsval;
  call_value : option jsval
}.

Record FeesUsd : Type := {
  baseFeeUsd : JS.number;
  maxFeeUsd : JS.number;
  avgFeeUsd : JS.number
}.

(** The responses of the network collaborators, held fixed for a cycle:
    the provider's gas estimator ([None]: the request is rejected), what
    the estimator answers when a cycle asks it a second time at sending
    time, the gas price, the fee conversion [getFeesUsd] of the library's
    utils, and the relay behind [sendPopulatedTx] ([None]: the submission
    raises). A cycle asks for the gas of a call at most twice, once to price
    it and once more when it sends, and each of the two requests has its own
    answer. The gas price and the fee conversion are taken to answer, and so
    are the contract lookup and the snapshot reader of a [World]: a cycle in
    which one of them raises is outside this model. *)
Record Collaborators : Type := {
  rpc_estimateGas : call -> option Z;
  rpc_estimateGasAgain : call -> option Z;
  rpc_gasPrice : Z;
  rpc_feesUsd : Z -> Z -> JS.number -> call -> FeesUsd;
  rpc_send : call -> option string
}.

Record DrawAuctionConfig : Type := {
  chainId : Z;
  rewardRecipient : string;
  minProfitThresholdUsd : JS.number;
  useFlashbots : bool
}.

Inductive error : Type :=
| TypeError (what : string)       (* a property read or a call on [undefined] *)
| ReferenceError (what : string)  (* a name that is not defined *)
| Rejected (what : string).       (* a collaborator's promise rejected *)

(** What the program reports on the console, as far as the decision trail
    goes (spacers, banners and number formatting are left to the renderer). *)
Inductive logline : Type :=
| LogText (msg : string)
| LogNumber (label : string) (x : JS.number)
| LogBool (label : string) (b : bool)
| LogBig (label : string) (z : Z)
| LogObject (label : string) (o : object)
| LogProfit (grossProfitUsd netProfitUsd : JS.number)
| LogProfitTable (minProfitThresholdUsd netProfitUsd : JS.number) (profitable : bool)
| LogError (e : error).

(** The calls that leave the process, in the order they are made. *)
Inductive event : Type :=
| ReadContext
| EstimateGas (c : call)
| GetGasPrice
| GetFeesUsd (chain : Z) (gasLimit : Z) (rateUsd : JS.number) (data : call)
| SendPopulatedTx (chain : Z) (tx : call) (gasLimit : JS.number) (gasPrice : Z)
                  (flashbots : bool) (txParams : object)
| Console (l : logline).

(** ** The monad of the asynchronous functions *)

Record state : Type := { store : list object; trace : list event }.

Inductive outcome (A : Type) : Type :=
| Returned (a : A)
| Thrown (e : error).

Arguments Returned {A} a.
Arguments Thrown {A} e.

Definition M (A : Type) : Type := state -> outcome A * state.

Definition ret {A} (a : A) : M A := fun s => (Returned a, s).

Definition bind {A B} (m : M A) (k : A -> M B) : M B :=
  fun s =>
    match m s with
    | (Returned a, s') => k a s'
    | (Thrown e, s') => (Thrown e, s')
    end.

Definition throw {A} (e : error) : M A := fun s => (Thrown e, s).

(** [try { m } catch (e) { h e }]. *)
Definition try_catch {A} (m : M A) (h : error -> M A) : M A :=
  fun s =>
    match m s with
    | (Returned a, s') => (Returned a, s')
    | (Thrown e, s') => h e s'
    end.

Declare Scope js_scope.
Delimit Scope js_scope with js.

Notation "x <- m ;; k" := (bind m (fun x => k))
  (at level 61, m at next level, right associativity) : js_scope.
Notation "' pat <- m ;; k" := (bind m (fun x => match x with pat => k end))
  (at level 61, pat pattern, m at next level, right associativity) : js_scope.
Notation "m ;; k" := (bind m (fun _ => k))
  (at level 61, right associativity) : js_scope.

Local Open Scope js_scope.

Definition emit (e : event) : M unit :=
  fun s => (Returned tt, {| store := store s; trace := trace s ++ [e] |}).

Definition console_log (l : logline) : M unit := emit (Console l).

(** An object literal or a spread copy: a fresh object at a fresh address. *)
Definition alloc (o : object) : M loc :=
  fun s => (Returned (List.length (store s)),
            {| store := store s ++ [o]; trace := trace s |}).

Definition load (l : loc) : M object :=
  fun s =>
    match nth_error (store s) l with
    | Some o => (Returned o, s)
    | None => (Thrown (TypeError "dangling reference"), s)
    end.

Definition update (l : loc) (o : object) : M unit :=
  fun s => (Returned tt, {| store := store_set (store s) l o; trace := trace s |}).

(** [contract.estimateGas.<fn>(...args, overrides)]. *)
Definition estimateGas (rpc : Collaborators) (c : call) : M Z :=
  emit (EstimateGas c) ;;
  match rpc_estimateGas rpc c with
  | Some g => ret g
  | None => throw (Rejected "estimateGas")
  end.

(** [contract.populateTransaction.<fn>(...args, overrides)]: local encoding. *)
Definition populateTransaction (c : Contract) (fn : string)
    (args : list jsval) (overrides : option jsval) : M call :=
  ret {| call_to := address c; call_fn := fn;
         call_args := args; call_value := overrides |}.

(** The collaborators at sending time: the provider's estimator now gives
    its second answers. *)
Definition estimating_again (rpc : Collaborators) : Collaborators :=
  {| rpc_estimateGas := rpc_estimateGasAgain rpc;
     rpc_estimateGasAgain := rpc_estimateGasAgain rpc;
     rpc_gasPrice := rpc_gasPrice rpc;
     rpc_feesUsd := rpc_feesUsd rpc;
     rpc_send := rpc_send rpc |}.

(** [provider.getGasPrice()]. *)
Definition getGasPrice (rpc : Collaborators) : M Z :=
  emit GetGasPrice ;; ret (rpc_gasPrice rpc).

(** [getFeesUsd(chainId, estimatedGasLimit, nativeTokenMarketRateUsd, provider, data)]. *)
Definition getFeesUsd (rpc : Collaborators) (chain : Z) (gasLimit : Z)
    (rateUsd : JS.number) (data : call) : M FeesUsd :=
  emit (GetFeesUsd chain gasLimit rateUsd data) ;;
  ret (rpc_feesUsd rpc chain gasLimit rateUsd data).

(** [sendPopulatedTx(chainId, ozRelayer, wallet, populatedTx, gasLimit,
    gasPrice, useFlashbots, txParams)]: returns the transaction's hash. *)
Definition sendPopulatedTx (rpc : Collaborators) (chain : Z) (tx : call)
    (gasLimit : JS.number) (gasPrice : Z) (flashbots : bool) (txParams : loc)
    : M string :=
  o <- load txParams ;;
  emit (SendPopulatedTx chain tx gasLimit gasPrice flashbots o) ;;
  match rpc_send rpc tx with
  | Some hash => ret hash
  | None => throw (Rejected "sendPopulatedTx")
  end.

(** ** src/unnamed/part_000: start draw and award draw (RngWitnet) *)

Module Part000.

Inductive DrawAuctionState : Type := Start | Award.

(** The fields of the reader's snapshot that the module reads; an absent
    [drawAuctionState] is [None]. *)
Record DrawAuctionContext : Type := {
  nativeTokenMarketRateUsd : JS.number;
  startDrawFeeUsd : JS.number;
  awardDrawFeeUsd : JS.number;
  rngFeeEstimate : Z;
  rngFeeEstimateUsd : JS.number;
  auctionClosesSoon : bool;
  drawAuctionState : option DrawAuctionState
}.

Record DrawAuctionContracts : Type := {
  prizePoolContract : Contract;
  drawManagerContract : Contract;
  rngWitnetContract : Contract
}.

(** What the collaborators answer during one cycle: the contracts that
    [getContract] resolves, the snapshot that the multicall reader
    returns, and the network. *)
Record World : Type := {
  resolved : DrawAuctionContracts;
  snapshot : DrawAuctionContext;
  rpc : Collaborators
}.

Definition MAX_FORCE_RELAY_LOSS_THRESHOLD_USD : JS.number := (-5)%float.

Definition instantiateDrawAuctionContracts (w : World) : M DrawAuctionContracts :=
  console_log (LogText "Instantiating RNG contracts ...") ;;
  ret (resolved w).

Definition getDrawAuctionContextMulticall (w : World) : M DrawAuctionContext :=
  emit ReadContext ;; ret (snapshot w).

(** The rendering of the snapshot; one line stands for the table. *)
Definition printContext (context : DrawAuctionContext) : M unit :=
  console_log (LogNumber "Chain Native/Gas Token Market Rate (USD)"
                 (nativeTokenMarketRateUsd context)).

Definition printNote : M unit :=
  console_log (LogText "Rewards accumulate post-awarding on the PrizePool!").

Definition transformStartDrawTxParams (txParams : loc) : M (jsval * loc) :=
  o <- load txParams ;;
  transformedTxParams <- alloc o ;;
  t <- load transformedTxParams ;;
  let value := obj_get "value" t in
  update transformedTxParams (obj_delete "value" t) ;;
  ret (value, transformedTxParams).

Definition buildStartDrawTxParams (config : DrawAuctionConfig)
    (context : DrawAuctionContext) (contracts : DrawAuctionContracts) : M loc :=
  alloc [ ("drawManagerAddress", VStr (address (drawManagerContract contracts)));
          ("rewardRecipient", VStr (rewardRecipient config));
          ("value", VBig (rngFeeEstimate context * 2)%Z) ].

Definition buildAwardDrawTxParams (config : DrawAuctionConfig) : M loc :=
  alloc [ ("rewardRecipient", VStr (rewardRecipient config)) ].

Definition getStartDrawEstimatedGasLimit (w : World) (contract : Contract)
    (startDrawTxParams : loc) : M (option Z) :=
  try_catch
    ('(value, transformedTxParams) <- transformStartDrawTxParams startDrawTxParams ;;
     t <- load transformedTxParams ;;
     g <- estimateGas (rpc w)
            {| call_to := address contract; call_fn := "startDraw";
               call_args := obj_values t; call_value := Some value |} ;;
     ret (Some g))
    (fun e => console_log (LogError e) ;; ret None).

Definition getGasCostUsd (w : World) (config : DrawAuctionConfig)
    (estimatedGasLimit : option Z) (nativeTokenMarketRateUsd : JS.number)
    (populatedTx : call) : M JS.number :=
  match estimatedGasLimit with
  | None =>
      console_log (LogText "Estimated gas limit is 0 ...") ;; ret 0%float
  | Some g =>
      if (g =? 0)%Z then
        console_log (LogText "Estimated gas limit is 0 ...") ;; ret 0%float
      else
        console_log (LogBig "Estimated gas limit (wei):" g) ;;
        gasPrice <- getGasPrice (rpc w) ;;
        console_log (LogBig "Recent Gas Price (wei):" gasPrice) ;;
        fees <- getFeesUsd (rpc w) (chainId config) g nativeTokenMarketRateUsd populatedTx ;;
        console_log (LogNumber "Gas Cost (USD):" (avgFeeUsd fees)) ;;
        ret (avgFeeUsd fees)
  end.

Definition getStartDrawGasCostUsd (w : World) (config : DrawAuctionConfig)
    (context : DrawAuctionContext) (drawAuctionContracts : DrawAuctionContracts)
    : M JS.number :=
  console_log (LogText "Estimating RngWitnet#startDraw() gas costs ...") ;;
  startDrawTxParams <- buildStartDrawTxParams config context drawAuctionContracts ;;
  estimatedGasLimit <- getStartDrawEstimatedGasLimit w
                         (rngWitnetContract drawAuctionContracts) startDrawTxParams ;;
  '(value, transformedTxParams) <- transformStartDrawTxParams startDrawTxParams ;;
  t <- load transformedTxParams ;;
  populatedTx <- populateTransaction (rngWitnetContract drawAuctionContracts)
                   "startDraw" (obj_values t) (Some value) ;;
  getGasCostUsd w config estimatedGasLimit (nativeTokenMarketRateUsd context) populatedTx.

Definition getAwardDrawGasCostUsd (w : World) (txParams : loc) (contract : Contract)
    (config : DrawAuctionConfig) (context : DrawAuctionContext) : M JS.number :=
  console_log (LogText "Estimating DrawManager#awardDraw() gas costs ...") ;;
  let estimatedGasLimit := Some 400000%Z in
  o <- load txParams ;;
  populatedTx <- populateTransaction contract "awardDraw" (obj_values o) None ;;
  getGasCostUsd w config estimatedGasLimit (nativeTokenMarketRateUsd context) populatedTx.

Definition calculateStartDrawProfit (config : DrawAuctionConfig)
    (context : DrawAuctionContext) (gasCostUsd : JS.number) : M bool :=
  console_log (LogText "Calculating profit ...") ;;
  let grossProfitUsd := startDrawFeeUsd context in
  let netProfitUsd :=
    JS.sub (JS.sub grossProfitUsd gasCostUsd) (rngFeeEstimateUsd context) in
  console_log (LogProfit grossProfitUsd netProfitUsd) ;;
  let profitable := JS.gt netProfitUsd (minProfitThresholdUsd config) in
  console_log (LogProfitTable (minProfitThresholdUsd config) netProfitUsd profitable) ;;
  ret profitable.

Definition calculateAwardDrawProfit (config : DrawAuctionConfig)
    (rewardUsd : JS.number) (gasCostUsd : JS.number) : M (JS.number * bool) :=
  console_log (LogText "Calculating profit ...") ;;
  let grossProfitUsd := rewardUsd in
  let netProfitUsd := JS.sub grossProfitUsd gasCostUsd in
  console_log (LogProfit grossProfitUsd netProfitUsd) ;;
  let profitable := JS.gt netProfitUsd (minProfitThresholdUsd config) in
  console_log (LogProfitTable (minProfitThresholdUsd config) netProfitUsd profitable) ;;
  ret (netProfitUsd, profitable).

Definition checkForceAwardDraw (config : DrawAuctionConfig)
    (context : DrawAuctionContext) (netProfitUsd : JS.number) : M bool :=
  console_log (LogNumber "netProfitUsd" netProfitUsd) ;;
  console_log (LogNumber "MAX_FORCE_RELAY_LOSS_THRESHOLD_USD"
                 MAX_FORCE_RELAY_LOSS_THRESHOLD_USD) ;;
  let lossOkay := JS.gt netProfitUsd MAX_FORCE_RELAY_LOSS_THRESHOLD_USD in
  console_log (LogBool "lossOkay" lossOkay) ;;
  ret (auctionClosesSoon context && lossOkay).

Definition sendPopulatedStartDrawTransaction (w : World) (config : DrawAuctionConfig)
    (context : DrawAuctionContext) (drawAuctionContracts : DrawAuctionContracts)
    : M unit :=
  console_log (LogText "Execute rngWitnet#startDraw") ;;
  let contract := rngWitnetContract drawAuctionContracts in
  txParams <- buildStartDrawTxParams config context drawAuctionContracts ;;
  o <- load txParams ;;
  console_log (LogObject "txParams" o) ;;
  '(value, transformedTxParams) <- transformStartDrawTxParams txParams ;;
  t <- load transformedTxParams ;;
  populatedTx <- populateTransaction contract "startDraw" (obj_values t) (Some value) ;;
  gasPrice <- getGasPrice (rpc w) ;;
  console_log (LogBig "gasPrice" gasPrice) ;;
  let gasLimit := 850000%float in
  hash <- sendPopulatedTx (rpc w) (chainId config) populatedTx gasLimit gasPrice
            (useFlashbots config) txParams ;;
  console_log (LogText "Transaction sent!") ;;
  console_log (LogText hash) ;;
  printNote.

Definition sendPopulatedAwardDrawTransaction (w : World) (config : DrawAuctionConfig)
    (txParams : loc) (contract : Contract) : M unit :=
  gasPrice <- getGasPrice (rpc w) ;;
  console_log (LogText "Execute DrawManager#awardDraw") ;;
  o <- load txParams ;;
  populatedTx <- populateTransaction contract "awardDraw" (obj_values o) None ;;
  let gasLimit := 800000%float in
  hash <- sendPopulatedTx (rpc w) (chainId config) populatedTx gasLimit gasPrice
            false txParams ;;
  console_log (LogText "Transaction sent!") ;;
  console_log (LogText hash) ;;
  printNote.

Definition checkStartDraw (w : World) (config : DrawAuctionConfig)
    (context : DrawAuctionContext) (drawAuctionContracts : DrawAuctionContracts)
    : M unit :=
  gasCostUsd <- getStartDrawGasCostUsd w config context drawAuctionContracts ;;
  if JS.strict_eq gasCostUsd 0%float then
    console_log (LogText "Gas cost is $0. Unable to determine profitability. Exiting ...")
  else
    profitable <- calculateStartDrawProfit config context gasCostUsd ;;
    if profitable : bool then
      sendPopulatedStartDrawTransaction w config context drawAuctionContracts
    else
      console_log
        (LogText "Completing current auction currently not profitable. Try again soon ...").

Definition checkAwardDraw (w : World) (config : DrawAuctionConfig)
    (context : DrawAuctionContext) (drawAuctionContracts : DrawAuctionContracts)
    : M unit :=
  let contract := drawManagerContract drawAuctionContracts in
  txParams <- buildAwardDrawTxParams config ;;
  gasCostUsd <- getAwardDrawGasCostUsd w txParams contract config context ;;
  if JS.strict_eq gasCostUsd 0%float then
    console_log (LogText "Gas cost is $0. Unable to determine profitability. Exiting ...")
  else
    '(netProfitUsd, profitable) <-
       calculateAwardDrawProfit config (awardDrawFeeUsd context) gasCostUsd ;;
    console_log (LogBool "profitable" profitable) ;;
    forceAwardDraw <- checkForceAwardDraw config context netProfitUsd ;;
    console_log (LogBool "forceAwardDraw" forceAwardDraw) ;;
    if (profitable || forceAwardDraw)%bool then
      sendPopulatedAwardDrawTransaction w config txParams contract
    else
      console_log
        (LogText "Completing current auction currently not profitable. Try again soon ...").

Definition runDrawAuction (w : World) (config : DrawAuctionConfig) : M unit :=
  drawAuctionContracts <- instantiateDrawAuctionContracts w ;;
  context <- getDrawAuctionContextMulticall w ;;
  printContext context ;;
  match drawAuctionState context with
  | None =>
      console_log (LogText "Currently no Rng or RngRelay auctions to complete. Exiting ...")
  | Some Start =>
      console_log (LogText "Processing 'start draw'") ;;
      checkStartDraw w config context drawAuctionContracts
  | Some Award =>
      console_log (LogText "Processing 'award draw'") ;;
      checkAwardDraw w config context drawAuctionContracts
  end.

End Part000.

(** ** src/packages/library/src/drawAuction.ts: start draw and finish draw *)

Module DrawAuctionTs.

Inductive DrawAuctionState : Type := Start | Finish.

(** The fields of the reader's snapshot that the module reads; an absent
    [drawAuctionState] is [None]. *)
Record DrawAuctionContext : Type := {
  nativeTokenMarketRateUsd : JS.number;
  startDrawRewardUsd : JS.number;
  finishDrawRewardUsd : JS.number;
  rngFeeEstimate : Z;
  rngFeeEstimateUsd : JS.number;
  drawAuctionState : option DrawAuctionState
}.

(** The two RNG contracts are looked up under [try]/[catch]: the one the
    chain does not deploy stays [undefined]. *)
Record DrawAuctionContracts : Type := {
  prizePoolContract : Contract;
  drawManagerContract : Contract;
  rngWitnetContract : option Contract;
  rngBlockhashContract : option Contract
}.

Record World : Type := {
  resolved : DrawAuctionContracts;
  snapshot : DrawAuctionContext;
  rpc : Collaborators
}.

(** The world at sending time, when the gas estimate is requested again. *)
Definition asked_again (w : World) : World :=
  {| resolved := resolved w;
     snapshot := snapshot w;
     rpc := estimating_again (rpc w) |}.

(** [const DRAW_GAS_LIMIT_BUFFER: number = 100000]: an integer, used as
    the operand of a BigNumber [.add] and, through [JS.of_int], of a
    number [+]. *)
Definition DRAW_GAS_LIMIT_BUFFER : Z := 100000%Z.

Definition instantiateDrawAuctionContracts (w : World) : M DrawAuctionContracts :=
  console_log (LogText "Instantiating RNG contracts ...") ;;
  ret (resolved w).

Definition getDrawAuctionContextMulticall (w : World) : M DrawAuctionContext :=
  emit ReadContext ;; ret (snapshot w).

(** The rendering of the snapshot; one line stands for the table. *)
Definition printContext (context : DrawAuctionContext) : M unit :=
  console_log (LogNumber "Chain Native/Gas Token Market Rate (USD)"
                 (nativeTokenMarketRateUsd context)).

Definition printNote : M unit :=
  console_log (LogText "Rewards accumulate post-draw on the PrizePool!").

Definition transformRngWitnetStartDrawTxParams (txParams : loc) : M (jsval * loc) :=
  o <- load txParams ;;
  transformedTxParams <- alloc o ;;
  t <- load transformedTxParams ;;
  let value := obj_get "value" t in
  update transformedTxParams (obj_delete "value" t) ;;
  ret (value, transformedTxParams).

Definition buildRngBlockhashStartDrawTxParams (config : DrawAuctionConfig)
    (drawAuctionContracts : DrawAuctionContracts) : M loc :=
  alloc [ ("drawManagerAddress", VStr (address (drawManagerContract drawAuctionContracts)));
          ("rewardRecipient", VStr (rewardRecipient config)) ].

Definition buildRngWitnetStartDrawTxParams (config : DrawAuctionConfig)
    (context : DrawAuctionContext) (drawAuctionContracts : DrawAuctionContracts) : M loc :=
  alloc [ ("rngPaymentAmount", VBig (rngFeeEstimate context));
          ("drawManagerAddress", VStr (address (drawManagerContract drawAuctionContracts)));
          ("rewardRecipient", VStr (rewardRecipient config));
          ("value", VBig (rngFeeEstimate context)) ].

Definition buildFinishDrawTxParams (config : DrawAuctionConfig) : M loc :=
  alloc [ ("rewardRecipient", VStr (rewardRecipient config)) ].

(** [contract.<kind>] on a contract handle that may be [undefined]. *)
Definition handle (contract : option Contract) : M Contract :=
  match contract with
  | Some c => ret c
  | None => throw (TypeError "contract is undefined")
  end.

Definition getRngWitnetStartDrawEstimatedGasLimit (w : World)
    (contract : option Contract) (rngWitnetStartDrawTxParams : loc) : M (option Z) :=
  try_catch
    ('(value, transformedTxParams) <-
        transformRngWitnetStartDrawTxParams rngWitnetStartDrawTxParams ;;
     c <- handle contract ;;
     t <- load transformedTxParams ;;
     g <- estimateGas (rpc w)
            {| call_to := address c; call_fn := "startDraw";
               call_args := obj_values t; call_value := Some value |} ;;
     ret (Some g))
    (fun e => console_log (LogError e) ;; ret None).

Definition getRngBlockhashStartDrawEstimatedGasLimit (w : World)
    (contract : option Contract) (rngBlockhashStartDrawTxParams : loc) : M (option Z) :=
  try_catch
    (c <- handle contract ;;
     o <- load rngBlockhashStartDrawTxParams ;;
     g <- estimateGas (rpc w)
            {| call_to := address c; call_fn := "startDraw";
               call_args := obj_values o; call_value := None |} ;;
     ret (Some g))
    (fun e => console_log (LogError e) ;; ret None).

Definition getFinishDrawEstimatedGasLimit (w : World)
    (contract : Contract) (finishDrawTxParams : loc) : M (option Z) :=
  try_catch
    (o <- load finishDrawTxParams ;;
     g <- estimateGas (rpc w)
            {| call_to := address contract; call_fn := "startDraw";
               call_args := obj_values o; call_value := None |} ;;
     ret (Some g))
    (fun e => console_log (LogError e) ;; ret None).

(** [getStartDrawEstimatedGasLimit] is the name that
    [getStartDrawGasCostUsd] and [sendPopulatedStartDrawTransaction] call
    in both of their branches (drawAuction.ts l.197, 212, 556, 571). This
    version of the file neither defines nor imports it (it defines the two
    estimators above instead), so evaluating the call raises a
    ReferenceError, outside any [try]. *)
Definition getStartDrawEstimatedGasLimit (contract : option Contract)
    (txParams : loc) : M (option Z) :=
  throw (ReferenceError "getStartDrawEstimatedGasLimit is not defined").

(** [estimatedGasLimit.add(n)] on a BigNumber that may be [undefined]. *)
Definition BigNumber_add (estimatedGasLimit : option Z) (n : Z) : M Z :=
  match estimatedGasLimit with
  | Some g => ret (g + n)%Z
  | None => throw (TypeError "Cannot read properties of undefined (reading 'add')")
  end.

(** [estimatedGasLimit.toString()] on a BigNumber that may be [undefined]. *)
Definition BigNumber_toString (estimatedGasLimit : option Z) : M Z :=
  match estimatedGasLimit with
  | Some g => ret g
  | None => throw (TypeError "Cannot read properties of undefined (reading 'toString')")
  end.

Definition getGasCostUsd (w : World) (config : DrawAuctionConfig)
    (estimatedGasLimit : option Z) (nativeTokenMarketRateUsd : JS.number)
    (populatedTx : call) : M JS.number :=
  match estimatedGasLimit with
  | None =>
      console_log (LogText "Estimated gas limit is 0 ...") ;; ret 0%float
  | Some g =>
      if (g =? 0)%Z then
        console_log (LogText "Estimated gas limit is 0 ...") ;; ret 0%float
      else
        console_log (LogBig "Estimated gas limit (wei):" g) ;;
        gasPrice <- getGasPrice (rpc w) ;;
        console_log (LogBig "Recent Gas Price (wei):" gasPrice) ;;
        fees <- getFeesUsd (rpc w) (chainId config) g nativeTokenMarketRateUsd populatedTx ;;
        console_log (LogNumber "Gas Cost (USD):" (avgFeeUsd fees)) ;;
        ret (avgFeeUsd fees)
  end.

(** The two branches that [getStartDrawGasCostUsd] and
    [sendPopulatedStartDrawTransaction] share word for word: the parameters
    object, the estimate and the populated transaction of the deployed
    backend. *)
Definition prepareStartDraw (w : World) (config : DrawAuctionConfig)
    (context : DrawAuctionContext) (drawAuctionContracts : DrawAuctionContracts)
    : M (loc * option Z * call) :=
  match rngWitnetContract drawAuctionContracts with
  | Some rngWitnet =>
      txParams <- buildRngWitnetStartDrawTxParams config context drawAuctionContracts ;;
      estimatedGasLimit <- getStartDrawEstimatedGasLimit
                             (rngWitnetContract drawAuctionContracts) txParams ;;
      '(value, transformedTxParams) <- transformRngWitnetStartDrawTxParams txParams ;;
      t <- load transformedTxParams ;;
      populatedTx <- populateTransaction rngWitnet "startDraw" (obj_values t) (Some value) ;;
      ret (txParams, estimatedGasLimit, populatedTx)
  | None =>
      txParams <- buildRngBlockhashStartDrawTxParams config drawAuctionContracts ;;
      estimatedGasLimit <- getStartDrawEstimatedGasLimit
                             (rngBlockhashContract drawAuctionContracts) txParams ;;
      rngBlockhash <- handle (rngBlockhashContract drawAuctionContracts) ;;
      o <- load txParams ;;
      populatedTx <- populateTransaction rngBlockhash "startDraw" (obj_values o) None ;;
      ret (txParams, estimatedGasLimit, populatedTx)
  end.

Definition getStartDrawGasCostUsd (w : World) (config : DrawAuctionConfig)
    (context : DrawAuctionContext) (drawAuctionContracts : DrawAuctionContracts)
    : M JS.number :=
  console_log (LogText "Estimating RngWitnet#startDraw() gas costs ...") ;;
  '(txParams, estimatedGasLimit, populatedTx) <-
     prepareStartDraw w config context drawAuctionContracts ;;
  estimatedGasLimitWithBuffer <- BigNumber_add estimatedGasLimit DRAW_GAS_LIMIT_BUFFER ;;
  getGasCostUsd w config (Some estimatedGasLimitWithBuffer)
    (nativeTokenMarketRateUsd context) populatedTx.

Definition getFinishDrawGasCostUsd (w : World) (txParams : loc) (contract : Contract)
    (config : DrawAuctionConfig) (context : DrawAuctionContext) : M JS.number :=
  console_log (LogText "Estimating DrawManager#finishDraw() gas costs ...") ;;
  estimatedGasLimit <- getFinishDrawEstimatedGasLimit w contract txParams ;;
  o <- load txParams ;;
  populatedTx <- populateTransaction contract "finishDraw" (obj_values o) None ;;
  estimatedGasLimitWithBuffer <- BigNumber_add estimatedGasLimit DRAW_GAS_LIMIT_BUFFER ;;
  getGasCostUsd w config (Some estimatedGasLimitWithBuffer)
    (nativeTokenMarketRateUsd context) populatedTx.

Definition calculateStartDrawProfit (config : DrawAuctionConfig)
    (context : DrawAuctionContext) (gasCostUsd : JS.number) : M bool :=
  console_log (LogText "Calculating profit ...") ;;
  let grossProfitUsd := startDrawRewardUsd context in
  let netProfitUsd :=
    JS.sub (JS.sub grossProfitUsd gasCostUsd) (rngFeeEstimateUsd context) in
  console_log (LogProfit grossProfitUsd netProfitUsd) ;;
  let profitable := JS.gt netProfitUsd (minProfitThresholdUsd config) in
  console_log (LogProfitTable (minProfitThresholdUsd config) netProfitUsd profitable) ;;
  ret profitable.

Definition calculateFinishDrawProfit (config : DrawAuctionConfig)
    (rewardUsd : JS.number) (gasCostUsd : JS.number) : M (JS.number * bool) :=
  console_log (LogText "Calculating profit ...") ;;
  let grossProfitUsd := rewardUsd in
  let netProfitUsd := JS.sub grossProfitUsd gasCostUsd in
  console_log (LogProfit grossProfitUsd netProfitUsd) ;;
  let profitable := JS.gt netProfitUsd (minProfitThresholdUsd config) in
  console_log (LogProfitTable (minProfitThresholdUsd config) netProfitUsd profitable) ;;
  ret (netProfitUsd, profitable).

Definition sendPopulatedStartDrawTransaction (w : World) (config : DrawAuctionConfig)
    (context : DrawAuctionContext) (drawAuctionContracts : DrawAuctionContracts)
    : M unit :=
  console_log (LogText "Execute rngWitnet#startDraw") ;;
  '(txParams, estimatedGasLimit, populatedTx) <-
     prepareStartDraw (asked_again w) config context drawAuctionContracts ;;
  console_log (LogText "estimatedGasLimit") ;;
  g <- BigNumber_toString estimatedGasLimit ;;
  console_log (LogBig "estimatedGasLimit.toString()" g) ;;
  let estimatedGasLimitWithBufferAsNumber :=
    JS.add (JS.NumberOfBigNumber g) (JS.of_int 100000) in
  console_log (LogNumber "estimatedGasLimitWithBufferAsNumber.toString()"
                 estimatedGasLimitWithBufferAsNumber) ;;
  gasPrice <- getGasPrice (rpc w) ;;
  hash <- sendPopulatedTx (rpc w) (chainId config) populatedTx
            estimatedGasLimitWithBufferAsNumber gasPrice (useFlashbots config) txParams ;;
  console_log (LogText "Transaction sent!") ;;
  console_log (LogText hash) ;;
  printNote.

Definition sendPopulatedFinishDrawTransaction (w : World) (config : DrawAuctionConfig)
    (txParams : loc) (contract : Contract) : M unit :=
  gasPrice <- getGasPrice (rpc w) ;;
  estimatedGasLimit <- getFinishDrawEstimatedGasLimit (asked_again w) contract txParams ;;
  console_log (LogText "estimatedGasLimit") ;;
  g <- BigNumber_toString estimatedGasLimit ;;
  console_log (LogBig "estimatedGasLimit.toString()" g) ;;
  let estimatedGasLimitWithBufferAsNumber :=
    JS.add (JS.NumberOfBigNumber g) (JS.of_int DRAW_GAS_LIMIT_BUFFER) in
  console_log (LogNumber "estimatedGasLimitWithBufferAsNumber.toString()"
                 estimatedGasLimitWithBufferAsNumber) ;;
  console_log (LogText "Execute DrawManager#finishDraw") ;;
  o <- load txParams ;;
  populatedTx <- populateTransaction contract "finishDraw" (obj_values o) None ;;
  hash <- sendPopulatedTx (rpc w) (chainId config) populatedTx
            estimatedGasLimitWithBufferAsNumber gasPrice false txParams ;;
  console_log (LogText "Transaction sent!") ;;
  console_log (LogText hash) ;;
  printNote.

Definition checkStartDraw (w : World) (config : DrawAuctionConfig)
    (context : DrawAuctionContext) (drawAuctionContracts : DrawAuctionContracts)
    : M unit :=
  gasCostUsd <- getStartDrawGasCostUsd w config context drawAuctionContracts ;;
  if JS.strict_eq gasCostUsd 0%float then
    console_log (LogText "Gas cost is $0. Unable to determine profitability. Exiting ...")
  else
    profitable <- calculateStartDrawProfit config context gasCostUsd ;;
    if profitable : bool then
      sendPopulatedStartDrawTransaction w config context drawAuctionContracts
    else
      console_log
        (LogText "Completing current auction currently not profitable. Try again soon ...").

Definition checkFinishDraw (w : World) (config : DrawAuctionConfig)
    (context : DrawAuctionContext) (drawAuctionContracts : DrawAuctionContracts)
    : M unit :=
  let contract := drawManagerContract drawAuctionContracts in
  txParams <- buildFinishDrawTxParams config ;;
  gasCostUsd <- getFinishDrawGasCostUsd w txParams contract config context ;;
  if JS.strict_eq gasCostUsd 0%float then
    console_log (LogText "Gas cost is $0. Unable to determine profitability. Exiting ...")
  else
    '(netProfitUsd, profitable) <-
       calculateFinishDrawProfit config (finishDrawRewardUsd context) gasCostUsd ;;
    if profitable : bool then
      sendPopulatedFinishDrawTransaction w config txParams contract
    else
      console_log
        (LogText "Completing current auction currently not profitable. Try again soon ...").

Definition runDrawAuction (w : World) (config : DrawAuctionConfig) : M unit :=
  drawAuctionContracts <- instantiateDrawAuctionContracts w ;;
  context <- getDrawAuctionContextMulticall w ;;
  printContext context ;;
  match drawAuctionState context with
  | None =>
      console_log (LogText "Currently no draw auctions to start or finish. Exiting ...")
  | Some Start =>
      console_log (LogText "Processing 'Start Draw'") ;;
      checkStartDraw w config context drawAuctionContracts
  | Some Finish =>
      console_log (LogText "Processing 'Finish Draw'") ;;
      checkFinishDraw w config context drawAuctionContracts
  end.

End DrawAuctionTs.

(** ** Observing a run *)

(** The state of a process that has not run a cycle yet. *)
Definition init : state := {| store := []; trace := [] |}.

(** [extend s d]: the state [s] followed by the objects and calls of [d]. *)
Definition extend (s d : state) : state :=
  {| store := store s ++ store d; trace := trace s ++ trace d |}.

(** A computation is framed when it neither reads nor changes what was
    allocated or recorded before it started: from any state it does what it
    does from [init], after that state. *)
Definition framed {A} (m : M A) : Prop :=
  forall s, m s = (fst (m init), extend s (snd (m init))).

(** The calls that [m] adds to the trace when started in [s]. *)
Definition new_events {A} (m : M A) (s : state) : list event :=
  skipn (List.length (trace s)) (trace (snd (m s))).

Definition is_send (e : event) : bool :=
  match e with SendPopulatedTx _ _ _ _ _ _ => true | _ => false end.

Definition is_estimate (e : event) : bool :=
  match e with EstimateGas _ => true | _ => false end.

Definition is_fees (e : event) : bool :=
  match e with GetFeesUsd _ _ _ _ => true | _ => false end.

Definition is_gas_price (e : event) : bool :=
  match e with GetGasPrice => true | _ => false end.

(** The transactions handed to the submission collaborator. *)
Definition sends (evs : list event) : list event := filter is_send evs.

(** The gas estimates requested from the provider. *)
Definition estimates (evs : list event) : list event := filter is_estimate evs.

(** The fee conversions requested. *)
Definition conversions (evs : list event) : list event := filter is_fees evs.

Definition dispatched (evs : list event) : bool :=
  match sends evs with [] => false | _ :: _ => true end.

(** The calls the two versions build, as their text spells them. *)

(** part_000, start draw: [startDraw(drawManagerAddress, rewardRecipient,
    { value })] on RngWitnet, with the value of [buildStartDrawTxParams]. *)
Definition startDrawCall (config : DrawAuctionConfig)
    (context : Part000.DrawAuctionContext)
    (contracts : Part000.DrawAuctionContracts) : call :=
  {| call_to := address (Part000.rngWitnetContract contracts);
     call_fn := "startDraw";
     call_args := [ VStr (address (Part000.drawManagerContract contracts));
                    VStr (rewardRecipient config) ];
     call_value := Some (VBig (Part000.rngFeeEstimate context * 2)) |}.

(** part_000, award draw: [awardDraw(rewardRecipient)] on DrawManager. *)
Definition awardDrawCall (config : DrawAuctionConfig)
    (contracts : Part000.DrawAuctionContracts) : call :=
  {| call_to := address (Part000.drawManagerContract contracts);
     call_fn := "awardDraw";
     call_args := [ VStr (rewardRecipient config) ];
     call_value := None |}.

(** drawAuction.ts, finish draw: the call that is populated, priced and
    sent, [finishDraw(rewardRecipient)] on DrawManager ... *)
Definition ts_finishDrawCall (config : DrawAuctionConfig)
    (contracts : DrawAuctionTs.DrawAuctionContracts) : call :=
  {| call_to := address (DrawAuctionTs.drawManagerContract contracts);
     call_fn := "finishDraw";
     call_args := [ VStr (rewardRecipient config) ];
     call_value := None |}.

(** ... and the call whose gas [getFinishDrawEstimatedGasLimit] asks for,
    [startDraw(rewardRecipient)] on DrawManager. *)
Definition ts_finishDrawEstimatedCall (config : DrawAuctionConfig)
    (contracts : DrawAuctionTs.DrawAuctionContracts) : call :=
  {| call_to := address (DrawAuctionTs.drawManagerContract contracts);
     call_fn := "startDraw";
     call_args := [ VStr (rewardRecipient config) ];
     call_value := None |}.

(** The contract call that an event carries: the call whose gas is
    estimated, the call whose cost is converted, the call that is sent. *)
Definition event_call (e : event) : option call :=
  match e with
  | EstimateGas c => Some c
  | GetFeesUsd _ _ _ c => Some c
  | SendPopulatedTx _ tx _ _ _ _ => Some tx
  | _ => None
  end.

(** The gas limit handed to the submission collaborator. *)
Definition event_gas_limit (e : event) : option JS.number :=
  match e with
  | SendPopulatedTx _ _ gasLimit _ _ _ => Some gasLimit
  | _ => None
  end.

(** The flag printed under [label], if the run printed one. *)
Fixpoint reported_flag (label : string) (evs : list event) : option bool :=
  match evs with
  | [] => None
  | Console (LogBool l b) :: evs' =>
      if String.eqb label l then Some b else reported_flag label evs'
  | _ :: evs' => reported_flag label evs'
  end.

(** The net profit and the verdict of the profit table, if the run printed one. *)
Fixpoint reported_profit (evs : list event) : option (JS.number * bool) :=
  match evs with
  | [] => None
  | Console (LogProfitTable _ net p) :: _ => Some (net, p)
  | _ :: evs' => reported_profit evs'
  end.

(** ** Concrete cycles

    The scenarios of the specification, with stubbed collaborators: a
    provider that answers every gas estimate with [gas], a fee conversion
    that prices every call at [feeUsd], and a relay that accepts. *)

Module Scenario.

Definition stub (gas : option Z) (feeUsd : JS.number) : Collaborators :=
  {| rpc_estimateGas := fun _ => gas;
     rpc_estimateGasAgain := fun _ => gas;
     rpc_gasPrice := 1000000000%Z;
     rpc_feesUsd := fun _ _ _ _ =>
       {| baseFeeUsd := feeUsd; maxFeeUsd := feeUsd; avgFeeUsd := feeUsd |};
     rpc_send := fun _ => Some "0xhash" |}.

Definition config : DrawAuctionConfig :=
  {| chainId := 10%Z; rewardRecipient := "0xRecipient";
     minProfitThresholdUsd := 1%float; useFlashbots := false |}.

Definition contracts000 : Part000.DrawAuctionContracts :=
  {| Part000.prizePoolContract := {| address := "0xPrizePool" |};
     Part000.drawManagerContract := {| address := "0xDrawManager" |};
     Part000.rngWitnetContract := {| address := "0xRngWitnet" |} |}.

Definition contractsTs : DrawAuctionTs.DrawAuctionContracts :=
  {| DrawAuctionTs.prizePoolContract := {| address := "0xPrizePool" |};
     DrawAuctionTs.drawManagerContract := {| address := "0xDrawManager" |};
     DrawAuctionTs.rngWitnetContract := Some {| address := "0xRngWitnet" |};
     DrawAuctionTs.rngBlockhashContract := None |}.

(** Start draw: reward $12.00, RNG fee $2.00 (7 base units). *)
Definition context000 (state : option Part000.DrawAuctionState)
    (closesSoon : bool) : Part000.DrawAuctionContext :=
  {| Part000.nativeTokenMarketRateUsd := 2000%float;
     Part000.startDrawFeeUsd := 12%float;
     Part000.awardDrawFeeUsd := 1%float;
     Part000.rngFeeEstimate := 7%Z;
     Part000.rngFeeEstimateUsd := 2%float;
     Part000.auctionClosesSoon := closesSoon;
     Part000.drawAuctionState := state |}.

Definition contextTs (state : option DrawAuctionTs.DrawAuctionState)
    (finishRewardUsd : JS.number) : DrawAuctionTs.DrawAuctionContext :=
  {| DrawAuctionTs.nativeTokenMarketRateUsd := 2000%float;
     DrawAuctionTs.startDrawRewardUsd := 12%float;
     DrawAuctionTs.finishDrawRewardUsd := finishRewardUsd;
     DrawAuctionTs.rngFeeEstimate := 7%Z;
     DrawAuctionTs.rngFeeEstimateUsd := 2%float;
     DrawAuctionTs.drawAuctionState := state |}.

Definition world000 (state : option Part000.DrawAuctionState) (closesSoon : bool)
    (gas : option Z) (feeUsd : JS.number) : Part000.World :=
  {| Part000.resolved := contracts000;
     Part000.snapshot := context000 state closesSoon;
     Part000.rpc := stub gas feeUsd |}.

Definition worldTs (state : option DrawAuctionTs.DrawAuctionState)
    (finishRewardUsd : JS.number) (gas : option Z) (feeUsd : JS.number)
    : DrawAuctionTs.World :=
  {| DrawAuctionTs.resolved := contractsTs;
     DrawAuctionTs.snapshot := contextTs state finishRewardUsd;
     DrawAuctionTs.rpc := stub gas feeUsd |}.

End Scenario.

(** ** Further observations on a run *)

(** [x !== x], the test that only NaN passes. *)
Definition is_NaN (x : JS.number) : bool := negb (JS.strict_eq x x).

(** The private-relay flag handed to the submission collaborator. *)
Definition event_flashbots (e : event) : option bool :=
  match e with
  | SendPopulatedTx _ _ _ _ flashbots _ => Some flashbots
  | _ => None
  end.


(** Every transaction in the trace is sent after a fee conversion was
    asked for that very call ([priced]: the calls converted so far). *)
Fixpoint sent_after_priced (priced : list call) (evs : list event) : Prop :=
  match evs with
  | [] => True
  | GetFeesUsd _ _ _ c :: evs' => sent_after_priced (c :: priced) evs'
  | SendPopulatedTx _ tx _ _ _ _ :: evs' =>
      In tx priced /\ sent_after_priced priced evs'
  | _ :: evs' => sent_after_priced priced evs'
  end.

(** Whether the run printed [Transaction sent!]. *)
Definition reported_sent (evs : list event) : bool :=
  existsb (fun e => match e with
                    | Console (LogText msg) => String.eqb msg "Transaction sent!"
                    | _ => false
                    end) evs.

(** The gas price requests made to the provider. *)
Definition gas_price_requests (evs : list event) : list event :=
  filter is_gas_price evs.

(** ** src/packages/library/src/yieldVaultMintRate.ts *)

Module YieldVaultMintRate.

(** The two errors the function raises itself. *)
Inductive failure : Type :=
| ContractUnavailable           (* new Error('YieldVault: Contract Unavailable') *)
| Wrapped (e : error).          (* new Error(error), from the catch block *)

(** What the loop does, in order: it asks the gas price, prints, and calls
    the five-argument [sendPopulatedTx(ozRelayer, wallet, populatedTx,
    gasLimit, gasPrice)] of this version of the helper. *)
Inductive step : Type :=
| AskGasPrice
| Print (msg : string)
| Send (populatedTx : call) (gasLimit : JS.number) (gasPrice : Z).

(** [yieldVaultContract.populateTransaction.mintRate()]. *)
Definition mintRateTx (yieldVaultContract : Contract) : call :=
  {| call_to := address yieldVaultContract; call_fn := "mintRate";
     call_args := []; call_value := None |}.

(** The [for ... of] loop over the contracts that [getContracts] resolved
    (a slot may hold no contract); the result is the error that ended the
    run, if any. *)
Fixpoint runYieldVaultMintRate (rpc : Collaborators)
    (yieldVaultContracts : list (option Contract)) : list step * option failure :=
  match yieldVaultContracts with
  | [] => ([], None)
  | None :: _ => ([], Some ContractUnavailable)
  | Some yieldVaultContract :: rest =>
      let populatedTx := mintRateTx yieldVaultContract in
      let gasLimit := 200000%float in
      let gasPrice := rpc_gasPrice rpc in
      let attempt :=
        [ AskGasPrice;
          Print ("YieldVault: mintRate() " ++ address yieldVaultContract)%string;
          Send populatedTx gasLimit gasPrice ] in
      match rpc_send rpc populatedTx with
      | None => (attempt, Some (Wrapped (Rejected "sendPopulatedTx")))
      | Some hash =>
          let (steps, result) := runYieldVaultMintRate rpc rest in
          (attempt ++ [ Print ("TransactionHash: " ++ hash)%string; Print EmptyString ]
             ++ steps,
           result)
      end
  end.

(** The transactions handed to the relay. *)
Fixpoint sent (steps : list step) : list call :=
  match steps with
  | [] => []
  | Send populatedTx _ _ :: steps' => populatedTx :: sent steps'
  | _ :: steps' => sent steps'
  end.

(** The gas limits handed to the relay. *)
Fixpoint gas_limits (steps : list step) : list JS.number :=
  match steps with
  | [] => []
  | Send _ gasLimit _ :: steps' => gasLimit :: gas_limits steps'
  | _ :: steps' => gas_limits steps'
  end.

End YieldVaultMintRate.

(** ** More concrete cycles *)

(** A threshold that is not a number, as [Number] makes of a non-numeric
    MIN_PROFIT_THRESHOLD_USD. *)
Definition config_without_threshold : DrawAuctionConfig :=
  {| chainId := 10%Z; rewardRecipient := "0xRecipient";
     minProfitThresholdUsd := nan; useFlashbots := false |}.

(** The scenario's configuration with the private relay switched on. *)
Definition config_with_flashbots : DrawAuctionConfig :=
  {| chainId := 10%Z; rewardRecipient := "0xRecipient";
     minProfitThresholdUsd := 1%float; useFlashbots := true |}.

(** A relay that refuses every submission. *)
Definition refusing (rpc : Collaborators) : Collaborators :=
  {| rpc_estimateGas := rpc_estimateGas rpc;
     rpc_estimateGasAgain := rpc_estimateGasAgain rpc;
     rpc_gasPrice := rpc_gasPrice rpc;
     rpc_feesUsd := rpc_feesUsd rpc;
     rpc_send := fun _ => None |}.

(** A provider that rejects the estimate when it is requested again. *)
Definition rejecting_again (rpc : Collaborators) : Collaborators :=
  {| rpc_estimateGas := rpc_estimateGas rpc;
     rpc_estimateGasAgain := fun _ => None;
     rpc_gasPrice := rpc_gasPrice rpc;
     rpc_feesUsd := rpc_feesUsd rpc;
     rpc_send := rpc_send rpc |}.

(** ** Proof support

    The operations on numbers stay folded while the program text is run. *)

Arguments JS.sub : simpl never.
Arguments JS.add : simpl never.
Arguments JS.gt : simpl never.
Arguments JS.strict_eq : simpl never.
Arguments JS.NumberOfBigNumber : simpl never.
Arguments JS.of_int : simpl never.

(** ** Facts about the comparison of binary64 values *)

Section FloatOrder.

Lemma SFcompare_swap (x y : spec_float) :
  SFcompare y x = option_map CompOpp (SFcompare x y).
Proof.
  destruct x as [sx | sx | | sx mx ex], y as [sy | sy | | sy my ey];
    simpl; try reflexivity;
    try (destruct sx; reflexivity);
    try (destruct sy; reflexivity);
    try (destruct sx, sy; reflexivity).
  destruct sx, sy; simpl; try reflexivity;
    rewrite (Z.compare_antisym ex ey);
    destruct (ex ?= ey)%Z; simpl; try reflexivity;
    rewrite (Pos.compare_cont_antisym mx my Eq); simpl;
    try rewrite CompOpp_involutive; reflexivity.
Qed.

(** Two numbers that are [===] are not ordered by [>], either way. *)
Lemma gt_false_of_strict_eq (x y : JS.number) :
  JS.strict_eq x y = true -> JS.gt x y = false.
Proof.
  unfold JS.strict_eq, JS.gt.
  rewrite eqb_spec, ltb_spec. unfold SFeqb, SFltb.
  rewrite (SFcompare_swap (Prim2SF x) (Prim2SF y)).
  destruct (SFcompare (Prim2SF x) (Prim2SF y)) as [[ | | ] | ];
    simpl; intros H; try discriminate H; reflexivity.
Qed.

(** [x > y] holds exactly when the IEEE 754 comparison of [x] with [y]
    answers "greater": never on equal values, never on a NaN. *)
Lemma gt_spec (x y : JS.number) :
  JS.gt x y = true <-> SFcompare (Prim2SF x) (Prim2SF y) = Some Gt.
Proof.
  unfold JS.gt. rewrite ltb_spec. unfold SFltb.
  rewrite (SFcompare_swap (Prim2SF x) (Prim2SF y)).
  destruct (SFcompare (Prim2SF x) (Prim2SF y)) as [[ | | ] | ];
    simpl; split; intros H; try discriminate H; reflexivity.
Qed.

(** [>] is irreflexive, NaN included. *)
Lemma gt_irrefl (x : JS.number) : JS.gt x x = false.
Proof.
  unfold JS.gt. rewrite ltb_spec. unfold SFltb.
  pose proof (SFcompare_swap (Prim2SF x) (Prim2SF x)) as H.
  destruct (SFcompare (Prim2SF x) (Prim2SF x)) as [[ | | ] | ];
    simpl in H; try discriminate H; reflexivity.
Qed.

End FloatOrder.

(** ** The store *)

Section Store.

Lemma nth_error_fresh (h : list object) (o : object) :
  nth_error (h ++ [o]) (List.length h) = Some o.
Proof.
  rewrite nth_error_app2 by lia. now rewrite Nat.sub_diag.
Qed.

Lemma nth_error_older (h x : list object) (l : loc) (o : object) :
  nth_error h l = Some o -> nth_error (h ++ x) l = Some o.
Proof.
  intros H. rewrite nth_error_app1; [exact H | ].
  apply nth_error_Some. congruence.
Qed.

Lemma store_set_fresh (h : list object) (o o' : object) :
  store_set (h ++ [o]) (List.length h) o' = h ++ [o'].
Proof.
  induction h as [ | x h IH]; simpl; [reflexivity | now rewrite IH].
Qed.

Lemma store_set_other (h : list object) (l l' : loc) (o' : object) :
  l <> l' -> nth_error (store_set h l' o') l = nth_error h l.
Proof.
  revert l l'. induction h as [ | x h IH]; intros l l' Hne.
  - destruct l'; reflexivity.
  - destruct l' as [ | l'], l as [ | l]; simpl; try reflexivity.
    + now contradiction Hne.
    + apply IH. congruence.
Qed.

Lemma new_events_framed {A} (m : M A) (s : state) :
  framed m -> new_events m s = trace (snd (m init)).
Proof.
  intros F. unfold new_events. rewrite (F s). simpl.
  rewrite skipn_app, skipn_all, Nat.sub_diag. reflexivity.
Qed.

End Store.

Ltac lookup_solve :=
  first [ apply nth_error_fresh | apply nth_error_older; lookup_solve ].

Ltac store_step :=
  match goal with
  | |- context [nth_error (?h ++ ?x) ?l] =>
      let E := fresh "E" in
      eassert (E : nth_error (h ++ x) l = Some _) by lookup_solve;
      rewrite E; clear E
  | |- context [store_set (?h ++ [?o]) (List.length ?h) ?o'] =>
      rewrite (store_set_fresh h o o')
  end.

Ltac monad_red :=
  cbv beta iota zeta delta
    [bind ret throw try_catch emit console_log alloc load update estimateGas
     populateTransaction getGasPrice getFeesUsd sendPopulatedTx store trace
     fst snd init extend
     Part000.runDrawAuction Part000.instantiateDrawAuctionContracts
     Part000.getDrawAuctionContextMulticall Part000.printContext
     Part000.checkAwardDraw Part000.buildAwardDrawTxParams
     Part000.getAwardDrawGasCostUsd Part000.getGasCostUsd
     Part000.calculateAwardDrawProfit Part000.checkForceAwardDraw
     Part000.sendPopulatedAwardDrawTransaction Part000.printNote
     Part000.checkStartDraw Part000.getStartDrawGasCostUsd
     Part000.buildStartDrawTxParams Part000.getStartDrawEstimatedGasLimit
     Part000.transformStartDrawTxParams Part000.calculateStartDrawProfit
     Part000.sendPopulatedStartDrawTransaction
     DrawAuctionTs.runDrawAuction DrawAuctionTs.instantiateDrawAuctionContracts
     DrawAuctionTs.getDrawAuctionContextMulticall DrawAuctionTs.printContext
     DrawAuctionTs.printNote DrawAuctionTs.transformRngWitnetStartDrawTxParams
     DrawAuctionTs.buildRngBlockhashStartDrawTxParams
     DrawAuctionTs.buildRngWitnetStartDrawTxParams
     DrawAuctionTs.buildFinishDrawTxParams DrawAuctionTs.handle
     DrawAuctionTs.getRngWitnetStartDrawEstimatedGasLimit
     DrawAuctionTs.getRngBlockhashStartDrawEstimatedGasLimit
     DrawAuctionTs.getFinishDrawEstimatedGasLimit
     DrawAuctionTs.getStartDrawEstimatedGasLimit DrawAuctionTs.BigNumber_add
     DrawAuctionTs.asked_again estimating_again
     DrawAuctionTs.BigNumber_toString DrawAuctionTs.getGasCostUsd
     DrawAuctionTs.prepareStartDraw DrawAuctionTs.getStartDrawGasCostUsd
     DrawAuctionTs.getFinishDrawGasCostUsd DrawAuctionTs.calculateStartDrawProfit
     DrawAuctionTs.calculateFinishDrawProfit
     DrawAuctionTs.sendPopulatedStartDrawTransaction
     DrawAuctionTs.sendPopulatedFinishDrawTransaction
     DrawAuctionTs.checkStartDraw DrawAuctionTs.checkFinishDraw].

Ltac case_step :=
  match goal with
  | H : ?x = _ |- context [match ?x with _ => _ end] => rewrite H
  | |- context [if ?b then _ else _] => destruct b eqn:?
  | |- context [match rpc_estimateGas ?r ?c with _ => _ end] =>
      destruct (rpc_estimateGas r c) eqn:?
  | |- context [match rpc_estimateGasAgain ?r ?c with _ => _ end] =>
      destruct (rpc_estimateGasAgain r c) eqn:?
  | |- context [match rpc_send ?r ?c with _ => _ end] =>
      destruct (rpc_send r c) eqn:?
  | |- context [match DrawAuctionTs.rngWitnetContract ?c with _ => _ end] =>
      destruct (DrawAuctionTs.rngWitnetContract c) eqn:?
  | |- context [match DrawAuctionTs.rngBlockhashContract ?c with _ => _ end] =>
      destruct (DrawAuctionTs.rngBlockhashContract c) eqn:?
  end.

(** Runs the program text as far as the collaborators' answers allow,
    splitting on each answer. *)
Ltac exec := repeat (monad_red; cbn; try first [store_step | case_step]).

Ltac run_prefix :=
  cbv beta iota zeta delta
    [bind ret emit console_log store trace
     Part000.runDrawAuction Part000.instantiateDrawAuctionContracts
     Part000.getDrawAuctionContextMulticall Part000.printContext
     DrawAuctionTs.runDrawAuction DrawAuctionTs.instantiateDrawAuctionContracts
     DrawAuctionTs.getDrawAuctionContextMulticall DrawAuctionTs.printContext].

(** Splits a membership in an explicit list of events into its cases. *)
Ltac each_event H :=
  cbn in H;
  repeat (destruct H as [H | H]; [ subst | ]); try contradiction.

(** Finds an event in the trace of a concrete run. *)
Ltac find_event := vm_compute; repeat (first [left; reflexivity | right]).

Ltac frame_by_exec :=
  let h := fresh "h" in let t := fresh "t" in
  intros [h t]; exec; rewrite <- ?app_assoc; reflexivity.

(** ** Every entry point is framed *)

Section Framing.

Lemma checkStartDraw_framed w config context contracts :
  framed (Part000.checkStartDraw w config context contracts).
Proof. frame_by_exec. Qed.

Lemma checkAwardDraw_framed w config context contracts :
  framed (Part000.checkAwardDraw w config context contracts).
Proof. frame_by_exec. Qed.

Lemma ts_checkStartDraw_framed w config context contracts :
  framed (DrawAuctionTs.checkStartDraw w config context contracts).
Proof. frame_by_exec. Qed.

Lemma ts_checkFinishDraw_framed w config context contracts :
  framed (DrawAuctionTs.checkFinishDraw w config context contracts).
Proof. frame_by_exec. Qed.

Lemma extend_assoc_trace (h : list object) (t evs : list event) (d : state) :
  extend {| store := h; trace := t ++ evs |} d =
  extend {| store := h; trace := t |} (extend {| store := []; trace := evs |} d).
Proof.
  unfold extend; cbn [store trace]. rewrite <- app_assoc. reflexivity.
Qed.

Lemma runDrawAuction_framed w config : framed (Part000.runDrawAuction w config).
Proof.
  intros [h t]. unfold init. run_prefix.
  destruct (Part000.drawAuctionState (Part000.snapshot w)) as [[ | ] | ].
  - rewrite (checkStartDraw_framed _ _ _ _ {| store := h |}).
    rewrite (checkStartDraw_framed _ _ _ _ {| store := [] |}).
    cbn [fst snd]. rewrite <- extend_assoc_trace, <- !app_assoc. reflexivity.
  - rewrite (checkAwardDraw_framed _ _ _ _ {| store := h |}).
    rewrite (checkAwardDraw_framed _ _ _ _ {| store := [] |}).
    cbn [fst snd]. rewrite <- extend_assoc_trace, <- !app_assoc. reflexivity.
  - unfold extend. cbn. rewrite app_nil_r, <- !app_assoc. reflexivity.
Qed.

Lemma ts_runDrawAuction_framed w config :
  framed (DrawAuctionTs.runDrawAuction w config).
Proof.
  intros [h t]. unfold init. run_prefix.
  destruct (DrawAuctionTs.drawAuctionState (DrawAuctionTs.snapshot w)) as [[ | ] | ].
  - rewrite (ts_checkStartDraw_framed _ _ _ _ {| store := h |}).
    rewrite (ts_checkStartDraw_framed _ _ _ _ {| store := [] |}).
    cbn [fst snd]. rewrite <- extend_assoc_trace, <- !app_assoc. reflexivity.
  - rewrite (ts_checkFinishDraw_framed _ _ _ _ {| store := h |}).
    rewrite (ts_checkFinishDraw_framed _ _ _ _ {| store := [] |}).
    cbn [fst snd]. rewrite <- extend_assoc_trace, <- !app_assoc. reflexivity.
  - unfold extend. cbn. rewrite app_nil_r, <- !app_assoc. reflexivity.
Qed.

Lemma framed_outcome {A} (m : M A) (s : state) :
  framed m -> fst (m s) = fst (m init).
Proof. intros F. now rewrite (F s). Qed.

End Framing.

(** ** The profit rule *)

(** C1. Phase one reports and uses
    netProfitUsd = reward - gasCostUsd - rngFeeEstimateUsd, phase two
    netProfitUsd = reward - gasCostUsd; in both, and in both versions of the
    module, profitable is exactly [netProfitUsd > minProfitThresholdUsd], so
    a net profit that equals the threshold is not profitable. *)
Theorem profit_rule_strict_threshold :
  forall (config : DrawAuctionConfig) (s : state),
    let threshold := minProfitThresholdUsd config in
    let reports gross net profitable :=
      {| store := store s;
         trace := trace s ++
           [ Console (LogText "Calculating profit ...");
             Console (LogProfit gross net);
             Console (LogProfitTable threshold net profitable) ] |} in
    (forall context gasCostUsd,
        let reward := DrawAuctionTs.startDrawRewardUsd context in
        let net := JS.sub (JS.sub reward gasCostUsd)
                     (DrawAuctionTs.rngFeeEstimateUsd context) in
        DrawAuctionTs.calculateStartDrawProfit config context gasCostUsd s =
          (Returned (JS.gt net threshold), reports reward net (JS.gt net threshold)))
    /\ (forall rewardUsd gasCostUsd,
        let net := JS.sub rewardUsd gasCostUsd in
        DrawAuctionTs.calculateFinishDrawProfit config rewardUsd gasCostUsd s =
          (Returned (net, JS.gt net threshold),
           reports rewardUsd net (JS.gt net threshold)))
    /\ (forall context gasCostUsd,
        let reward := Part000.startDrawFeeUsd context in
        let net := JS.sub (JS.sub reward gasCostUsd)
                     (Part000.rngFeeEstimateUsd context) in
        Part000.calculateStartDrawProfit config context gasCostUsd s =
          (Returned (JS.gt net threshold), reports reward net (JS.gt net threshold)))
    /\ (forall rewardUsd gasCostUsd,
        let net := JS.sub rewardUsd gasCostUsd in
        Part000.calculateAwardDrawProfit config rewardUsd gasCostUsd s =
          (Returned (net, JS.gt net threshold),
           reports rewardUsd net (JS.gt net threshold)))
    /\ (forall net, JS.strict_eq net threshold = true -> JS.gt net threshold = false)
    /\ JS.gt threshold threshold = false
    /\ (forall net,
          JS.gt net threshold = true <->
          SFcompare (Prim2SF net) (Prim2SF threshold) = Some Gt).
Proof.
  intros config [h t] threshold reports. subst reports threshold.
  split; [ | split; [ | split; [ | split; [ | split; [ | split ] ] ] ] ]; intros;
    try (monad_red; rewrite <- !app_assoc; reflexivity).
  - now apply gt_false_of_strict_eq.
  - apply gt_irrefl.
  - apply gt_spec.
Qed.

(** At the scenario threshold of $1, a net profit of exactly $1 is rejected. *)
Lemma profit_rule_strict_threshold_witness :
  JS.strict_eq 1%float (minProfitThresholdUsd Scenario.config) = true
  /\ JS.gt 1%float (minProfitThresholdUsd Scenario.config) = false.
Proof.
  split; [reflexivity | ].
  exact (proj1 (proj2 (proj2 (proj2 (proj2
           (profit_rule_strict_threshold Scenario.config init)))))
         1%float eq_refl).
Defined.

(** ** No auction, no action *)

(** C4. When the snapshot carries no auction state, the run returns
    normally after reading and printing the snapshot: it allocates nothing,
    and it requests no gas estimate, no gas price and no fee conversion, and
    sends nothing. *)
Theorem idle_snapshot_ends_cycle :
  forall (w0 : Part000.World) (wt : DrawAuctionTs.World)
         (config : DrawAuctionConfig) (s : state),
    Part000.drawAuctionState (Part000.snapshot w0) = None ->
    DrawAuctionTs.drawAuctionState (DrawAuctionTs.snapshot wt) = None ->
    let evs0 := new_events (Part000.runDrawAuction w0 config) s in
    let evst := new_events (DrawAuctionTs.runDrawAuction wt config) s in
    fst (Part000.runDrawAuction w0 config s) = Returned tt
    /\ fst (DrawAuctionTs.runDrawAuction wt config s) = Returned tt
    /\ store (snd (Part000.runDrawAuction w0 config s)) = store s
    /\ store (snd (DrawAuctionTs.runDrawAuction wt config s)) = store s
    /\ evs0 =
         [ Console (LogText "Instantiating RNG contracts ...");
           ReadContext;
           Console (LogNumber "Chain Native/Gas Token Market Rate (USD)"
                      (Part000.nativeTokenMarketRateUsd (Part000.snapshot w0)));
           Console (LogText
             "Currently no Rng or RngRelay auctions to complete. Exiting ...") ]
    /\ evst =
         [ Console (LogText "Instantiating RNG contracts ...");
           ReadContext;
           Console (LogNumber "Chain Native/Gas Token Market Rate (USD)"
                      (DrawAuctionTs.nativeTokenMarketRateUsd (DrawAuctionTs.snapshot wt)));
           Console (LogText
             "Currently no draw auctions to start or finish. Exiting ...") ]
    /\ estimates evs0 = [] /\ conversions evs0 = [] /\ sends evs0 = []
    /\ filter is_gas_price evs0 = []
    /\ estimates evst = [] /\ conversions evst = [] /\ sends evst = []
    /\ filter is_gas_price evst = [].
Proof.
  intros w0 wt config s H0 Ht evs0 evst.
  assert (E0 : Part000.runDrawAuction w0 config init =
               (Returned tt,
                {| store := [];
                   trace :=
                     [ Console (LogText "Instantiating RNG contracts ...");
                       ReadContext;
                       Console (LogNumber "Chain Native/Gas Token Market Rate (USD)"
                                  (Part000.nativeTokenMarketRateUsd (Part000.snapshot w0)));
                       Console (LogText
                         "Currently no Rng or RngRelay auctions to complete. Exiting ...") ] |})).
  { unfold init. run_prefix. rewrite H0. reflexivity. }
  assert (Et : DrawAuctionTs.runDrawAuction wt config init =
               (Returned tt,
                {| store := [];
                   trace :=
                     [ Console (LogText "Instantiating RNG contracts ...");
                       ReadContext;
                       Console (LogNumber "Chain Native/Gas Token Market Rate (USD)"
                                  (DrawAuctionTs.nativeTokenMarketRateUsd (DrawAuctionTs.snapshot wt)));
                       Console (LogText
                         "Currently no draw auctions to start or finish. Exiting ...") ] |})).
  { unfold init. run_prefix. rewrite Ht. reflexivity. }
  subst evs0 evst.
  rewrite (new_events_framed _ s (runDrawAuction_framed w0 config)).
  rewrite (new_events_framed _ s (ts_runDrawAuction_framed wt config)).
  rewrite (runDrawAuction_framed w0 config s).
  rewrite (ts_runDrawAuction_framed wt config s).
  rewrite E0, Et. cbn [fst snd store trace extend].
  rewrite app_nil_r. repeat split; reflexivity.
Qed.

(** Two idle snapshots: both versions return and send nothing. *)
Lemma idle_snapshot_ends_cycle_witness :
  fst (Part000.runDrawAuction (Scenario.world000 None false (Some 200000%Z) 3%float)
         Scenario.config init) = Returned tt
  /\ sends (new_events
              (DrawAuctionTs.runDrawAuction
                 (Scenario.worldTs None 1%float (Some 200000%Z) 3%float)
                 Scenario.config) init) = [].
Proof.
  pose proof (idle_snapshot_ends_cycle
                (Scenario.world000 None false (Some 200000%Z) 3%float)
                (Scenario.worldTs None 1%float (Some 200000%Z) 3%float)
                Scenario.config init eq_refl eq_refl) as H.
  cbv zeta in H.
  split; [exact (proj1 H) | ].
  exact (proj1 (proj2 (proj2 (proj2 (proj2 (proj2 (proj2 (proj2 (proj2
          (proj2 (proj2 (proj2 (proj2 H))))))))))))).
Defined.

(** ** Running the cycle twice *)

(** C8. With the snapshot and the collaborators' answers held fixed, a
    second cycle run after the first one ends the same way and makes exactly
    the same calls and reports, in the same order: the same phase, the same
    gross and net profit, the same profitable and forced flags. What the
    first cycle left in the store and on the trace has no influence. *)
Theorem cycle_is_repeatable :
  forall (w0 : Part000.World) (wt : DrawAuctionTs.World)
         (config : DrawAuctionConfig) (s : state),
    let once0 := Part000.runDrawAuction w0 config s in
    let twice0 := Part000.runDrawAuction w0 config (snd once0) in
    let evs1 := new_events (Part000.runDrawAuction w0 config) s in
    let evs2 := new_events (Part000.runDrawAuction w0 config) (snd once0) in
    let oncet := DrawAuctionTs.runDrawAuction wt config s in
    let twicet := DrawAuctionTs.runDrawAuction wt config (snd oncet) in
    let evt1 := new_events (DrawAuctionTs.runDrawAuction wt config) s in
    let evt2 := new_events (DrawAuctionTs.runDrawAuction wt config) (snd oncet) in
    fst twice0 = fst once0 /\ evs2 = evs1
    /\ trace (snd twice0) = (trace s ++ evs1) ++ evs1
    /\ reported_profit evs2 = reported_profit evs1
    /\ reported_flag "profitable" evs2 = reported_flag "profitable" evs1
    /\ reported_flag "forceAwardDraw" evs2 = reported_flag "forceAwardDraw" evs1
    /\ fst twicet = fst oncet /\ evt2 = evt1
    /\ trace (snd twicet) = (trace s ++ evt1) ++ evt1
    /\ reported_profit evt2 = reported_profit evt1.
Proof.
  intros w0 wt config s once0 twice0 evs1 evs2 oncet twicet evt1 evt2.
  pose proof (runDrawAuction_framed w0 config) as F0.
  pose proof (ts_runDrawAuction_framed wt config) as Ft.
  assert (E0 : evs2 = evs1).
  { subst evs1 evs2.
    rewrite (new_events_framed _ (snd once0) F0), (new_events_framed _ s F0).
    reflexivity. }
  assert (Et : evt2 = evt1).
  { subst evt1 evt2.
    rewrite (new_events_framed _ (snd oncet) Ft), (new_events_framed _ s Ft).
    reflexivity. }
  rewrite E0, Et.
  repeat split.
  - subst twice0 once0.
    rewrite (framed_outcome _ (snd (Part000.runDrawAuction w0 config s)) F0).
    rewrite (framed_outcome _ s F0). reflexivity.
  - subst twice0 once0 evs1.
    rewrite (new_events_framed _ _ F0).
    rewrite (F0 (snd (Part000.runDrawAuction w0 config s))).
    rewrite (F0 s). reflexivity.
  - subst twicet oncet.
    rewrite (framed_outcome _ (snd (DrawAuctionTs.runDrawAuction wt config s)) Ft).
    rewrite (framed_outcome _ s Ft). reflexivity.
  - subst twicet oncet evt1.
    rewrite (new_events_framed _ _ Ft).
    rewrite (Ft (snd (DrawAuctionTs.runDrawAuction wt config s))).
    rewrite (Ft s). reflexivity.
Qed.

(** ** Transaction parameters *)

Section Objects.

Lemma obj_get_delete_other (k k' : string) (o : object) :
  k <> k' -> obj_get k (obj_delete k' o) = obj_get k o.
Proof.
  intros Hne. induction o as [ | [k0 v] o IH]; simpl; [reflexivity | ].
  destruct (String.eqb k' k0) eqn:E0.
  - apply String.eqb_eq in E0. subst k0.
    destruct (String.eqb k k') eqn:E; [ | exact IH].
    apply String.eqb_eq in E. contradiction.
  - simpl. destruct (String.eqb k k0); [reflexivity | exact IH].
Qed.

Lemma obj_get_delete_same (k : string) (o : object) :
  obj_get k (obj_delete k o) = VUndefined.
Proof.
  induction o as [ | [k0 v] o IH]; simpl; [reflexivity | ].
  destruct (String.eqb k k0) eqn:E; [exact IH | ].
  simpl. now rewrite E.
Qed.

Lemma obj_keys_delete (k : string) (o : object) :
  obj_keys (obj_delete k o) =
  filter (fun k' => negb (String.eqb k k')) (obj_keys o).
Proof.
  induction o as [ | [k0 v] o IH]; simpl; [reflexivity | ].
  destruct (String.eqb k k0); simpl; now rewrite IH.
Qed.

Lemma transformStartDrawTxParams_run (txParams : loc) (o : object) (s : state) :
  nth_error (store s) txParams = Some o ->
  Part000.transformStartDrawTxParams txParams s =
    (Returned (obj_get "value" o, List.length (store s)),
     {| store := store s ++ [obj_delete "value" o]; trace := trace s |}).
Proof.
  destruct s as [h t]. cbn [store trace]. intros H.
  monad_red. rewrite H. monad_red.
  rewrite nth_error_fresh, store_set_fresh. reflexivity.
Qed.

Lemma transformRngWitnetStartDrawTxParams_run (txParams : loc) (o : object) (s : state) :
  nth_error (store s) txParams = Some o ->
  DrawAuctionTs.transformRngWitnetStartDrawTxParams txParams s =
    (Returned (obj_get "value" o, List.length (store s)),
     {| store := store s ++ [obj_delete "value" o]; trace := trace s |}).
Proof.
  destruct s as [h t]. cbn [store trace]. intros H.
  monad_red. rewrite H. monad_red.
  rewrite nth_error_fresh, store_set_fresh. reflexivity.
Qed.

End Objects.

(** C10. The transform function of either version, applied to a reference
    to a parameters object [o], allocates a copy, returns [o.value] together
    with a reference to the copy, and removes [value] from the copy only:
    the copy keeps every other property of [o], in order and unchanged, and
    [o] itself, like every object allocated before the call, is as it was. *)
Theorem transform_detaches_value_on_a_copy :
  forall (txParams : loc) (o : object) (s : state),
    nth_error (store s) txParams = Some o ->
    let copy := List.length (store s) in
    let after :=
      {| store := store s ++ [obj_delete "value" o]; trace := trace s |} in
    DrawAuctionTs.transformRngWitnetStartDrawTxParams txParams s =
      (Returned (obj_get "value" o, copy), after)
    /\ Part000.transformStartDrawTxParams txParams s =
      (Returned (obj_get "value" o, copy), after)
    /\ nth_error (store after) copy = Some (obj_delete "value" o)
    /\ nth_error (store after) txParams = Some o
    /\ (forall l, l < copy -> nth_error (store after) l = nth_error (store s) l)
    /\ (forall k, k <> "value" -> obj_get k (obj_delete "value" o) = obj_get k o)
    /\ obj_get "value" (obj_delete "value" o) = VUndefined
    /\ obj_keys (obj_delete "value" o) =
         filter (fun k => negb (String.eqb "value" k)) (obj_keys o)
    /\ (forall a b c v,
          o = [ ("rngPaymentAmount", a); ("drawManagerAddress", b);
                ("rewardRecipient", c); ("value", v) ] ->
          obj_get "value" o = v /\
          obj_delete "value" o =
            [ ("rngPaymentAmount", a); ("drawManagerAddress", b);
              ("rewardRecipient", c) ])
    /\ (forall b c v,
          o = [ ("drawManagerAddress", b); ("rewardRecipient", c); ("value", v) ] ->
          obj_get "value" o = v /\
          obj_delete "value" o =
            [ ("drawManagerAddress", b); ("rewardRecipient", c) ]).
Proof.
  intros txParams o s H copy after. subst copy after. cbn [store].
  repeat split.
  - now apply transformRngWitnetStartDrawTxParams_run.
  - now apply transformStartDrawTxParams_run.
  - apply nth_error_fresh.
  - now apply nth_error_older.
  - intros l Hl. now rewrite nth_error_app1.
  - intros k Hk. now apply obj_get_delete_other.
  - apply obj_get_delete_same.
  - apply obj_keys_delete.
  - subst o. reflexivity.
  - subst o. reflexivity.
  - subst o. reflexivity.
  - subst o. reflexivity.
Qed.

(** The RngWitnet parameters of the scenario, alone in the store: the copy
    goes to address 1 without [value], the original stays at address 0. *)
Lemma transform_detaches_value_on_a_copy_witness :
  let o := [ ("rngPaymentAmount", VBig 7); ("drawManagerAddress", VStr "0xDrawManager");
             ("rewardRecipient", VStr "0xRecipient"); ("value", VBig 7) ] in
  let s := {| store := [o]; trace := [] |} in
  DrawAuctionTs.transformRngWitnetStartDrawTxParams 0 s =
    (Returned (VBig 7, 1),
     {| store := [ o;
                   [ ("rngPaymentAmount", VBig 7);
                     ("drawManagerAddress", VStr "0xDrawManager");
                     ("rewardRecipient", VStr "0xRecipient") ] ];
        trace := [] |}).
Proof.
  exact (proj1 (transform_detaches_value_on_a_copy 0
    [ ("rngPaymentAmount", VBig 7); ("drawManagerAddress", VStr "0xDrawManager");
      ("rewardRecipient", VStr "0xRecipient"); ("value", VBig 7) ]
    {| store := [ [ ("rngPaymentAmount", VBig 7);
                    ("drawManagerAddress", VStr "0xDrawManager");
                    ("rewardRecipient", VStr "0xRecipient"); ("value", VBig 7) ] ];
       trace := [] |} eq_refl)).
Defined.

(** C9. The part_000 version attaches twice the snapshot's rngFeeEstimate
    to the startDraw call, as the [value] of the parameters object and so of
    every call it estimates, prices or sends in phase one, while its profit
    computation deducts rngFeeEstimateUsd once; the drawAuction.ts version
    builds its RngWitnet parameters with rngFeeEstimate itself as [value],
    which is the value of the call that its RngWitnet estimator asks about. *)
Theorem witnet_value_doubled_in_part000_only :
  forall (config : DrawAuctionConfig)
         (context0 : Part000.DrawAuctionContext)
         (contracts0 : Part000.DrawAuctionContracts)
         (contextT : DrawAuctionTs.DrawAuctionContext)
         (contractsT : DrawAuctionTs.DrawAuctionContracts)
         (s : state),
    Part000.buildStartDrawTxParams config context0 contracts0 s =
      (Returned (List.length (store s)),
       {| store := store s ++
            [ [ ("drawManagerAddress",
                 VStr (address (Part000.drawManagerContract contracts0)));
                ("rewardRecipient", VStr (rewardRecipient config));
                ("value", VBig (Part000.rngFeeEstimate context0 * 2)) ] ];
          trace := trace s |})
    /\ DrawAuctionTs.buildRngWitnetStartDrawTxParams config contextT contractsT s =
      (Returned (List.length (store s)),
       {| store := store s ++
            [ [ ("rngPaymentAmount", VBig (DrawAuctionTs.rngFeeEstimate contextT));
                ("drawManagerAddress",
                 VStr (address (DrawAuctionTs.drawManagerContract contractsT)));
                ("rewardRecipient", VStr (rewardRecipient config));
                ("value", VBig (DrawAuctionTs.rngFeeEstimate contextT)) ] ];
          trace := trace s |})
    /\ (forall w e c,
          In e (new_events (Part000.checkStartDraw w config context0 contracts0) s) ->
          event_call e = Some c ->
          call_value c = Some (VBig (Part000.rngFeeEstimate context0 * 2)))
    /\ (forall wt rngWitnet,
          map event_call
            (estimates
               (trace (snd
                  ((txParams <- DrawAuctionTs.buildRngWitnetStartDrawTxParams
                                  config contextT contractsT ;;
                    DrawAuctionTs.getRngWitnetStartDrawEstimatedGasLimit
                      wt (Some rngWitnet) txParams) init))))
          = [ Some {| call_to := address rngWitnet;
                      call_fn := "startDraw";
                      call_args :=
                        [ VBig (DrawAuctionTs.rngFeeEstimate contextT);
                          VStr (address (DrawAuctionTs.drawManagerContract contractsT));
                          VStr (rewardRecipient config) ];
                      call_value := Some (VBig (DrawAuctionTs.rngFeeEstimate contextT)) |} ])
    /\ (forall gasCostUsd,
          fst (Part000.calculateStartDrawProfit config context0 gasCostUsd s) =
          Returned
            (JS.gt (JS.sub (JS.sub (Part000.startDrawFeeUsd context0) gasCostUsd)
                      (Part000.rngFeeEstimateUsd context0))
               (minProfitThresholdUsd config))).
Proof.
  intros config context0 contracts0 contextT contractsT s.
  split; [reflexivity | ]. split; [reflexivity | ].
  split; [ | split].
  - intros w e c.
    rewrite (new_events_framed _ s (checkStartDraw_framed w config context0 contracts0)).
    revert e c. unfold init. exec;
      intros ev cl Hin Hc; each_event Hin; cbn in Hc;
      try discriminate Hc; injection Hc as <-; reflexivity.
  - intros wt rngWitnet. unfold init. exec; reflexivity.
  - intros gasCostUsd. reflexivity.
Qed.

(** In the part_000 scenario the call whose gas is estimated carries 14 base
    units, twice the fee estimate of 7. *)
Lemma witnet_value_doubled_in_part000_only_witness :
  let w := Scenario.world000 (Some Part000.Start) false (Some 200000%Z) 3%float in
  let context := Scenario.context000 (Some Part000.Start) false in
  let c :=
    {| call_to := "0xRngWitnet"; call_fn := "startDraw";
       call_args := [VStr "0xDrawManager"; VStr "0xRecipient"];
       call_value := Some (VBig 14) |} in
  In (EstimateGas c)
     (new_events
        (Part000.checkStartDraw w Scenario.config context Scenario.contracts000) init)
  /\ call_value c = Some (VBig (Part000.rngFeeEstimate context * 2)).
Proof.
  intros w context c.
  assert (Hin : In (EstimateGas c)
     (new_events
        (Part000.checkStartDraw w Scenario.config context Scenario.contracts000) init))
    by find_event.
  split; [exact Hin | ].
  exact (proj1 (proj2 (proj2
    (witnet_value_doubled_in_part000_only Scenario.config context
       Scenario.contracts000
       (Scenario.contextTs (Some DrawAuctionTs.Start) 12%float)
       Scenario.contractsTs init)))
    w (EstimateGas c) c Hin eq_refl).
Defined.

(** ** The forced award *)

(** C2, as stated, fails on the finish draw of drawAuction.ts, which has no
    forced override: with a reward of $1, a gas cost of $4 and a threshold of
    $1 the net profit of -$3 is above -$5, yet no forced flag is computed or
    printed and the transaction is not sent. *)
Lemma finish_draw_is_never_forced :
  let evs :=
    new_events (DrawAuctionTs.runDrawAuction
                  (Scenario.worldTs (Some DrawAuctionTs.Finish) 1%float
                     (Some 200000%Z) 4%float)
                  Scenario.config) init in
  reported_profit evs = Some ((-3)%float, false)
  /\ JS.gt (-3)%float Part000.MAX_FORCE_RELAY_LOSS_THRESHOLD_USD = true
  /\ reported_flag "forceAwardDraw" evs = None
  /\ dispatched evs = false.
Proof.
  vm_compute. repeat split; reflexivity.
Qed.

(** C2, amended. In part_000 the forced flag is [auctionClosesSoon &&
    netProfitUsd > -5], computed from the net profit alone; the award
    transaction is handed to the relay exactly when the cycle reported
    profitable or forced true, and never when it reported both false or, the
    gas cost being $0, reported neither. Forcing alone dispatches (reward $1,
    gas $4, threshold $1, auction closing soon), and without it the same loss
    does not. The finish draw of drawAuction.ts has no forced flag: after a
    successful estimate it reports the net profit and its strict comparison
    with the threshold, sends only when that verdict is true, and then only
    if the estimate it requests again at sending time is answered. *)
Theorem award_dispatch_rule :
  forall (w : Part000.World) (config : DrawAuctionConfig)
         (context : Part000.DrawAuctionContext)
         (contracts : Part000.DrawAuctionContracts)
         (wt : DrawAuctionTs.World)
         (contextT : DrawAuctionTs.DrawAuctionContext)
         (contractsT : DrawAuctionTs.DrawAuctionContracts)
         (s : state),
    let gasCostUsd :=
      avgFeeUsd (rpc_feesUsd (Part000.rpc w) (chainId config) 400000
                   (Part000.nativeTokenMarketRateUsd context)
                   (awardDrawCall config contracts)) in
    let net := JS.sub (Part000.awardDrawFeeUsd context) gasCostUsd in
    let profitable := JS.gt net (minProfitThresholdUsd config) in
    let forced := (Part000.auctionClosesSoon context && JS.gt net (-5)%float)%bool in
    let evs := new_events (Part000.checkAwardDraw w config context contracts) s in
    let evsT := new_events (DrawAuctionTs.checkFinishDraw wt config contextT contractsT) s in
    Part000.MAX_FORCE_RELAY_LOSS_THRESHOLD_USD = (-5)%float
    /\ (forall netProfitUsd s0,
          fst (Part000.checkForceAwardDraw config context netProfitUsd s0) =
          Returned (Part000.auctionClosesSoon context
                    && JS.gt netProfitUsd (-5)%float)%bool)
    /\ (forced = true <->
        Part000.auctionClosesSoon context = true /\ JS.gt net (-5)%float = true)
    /\ dispatched evs =
         match reported_flag "profitable" evs, reported_flag "forceAwardDraw" evs with
         | Some p, Some f => (p || f)%bool
         | _, _ => false
         end
    /\ (if JS.strict_eq gasCostUsd 0%float
        then reported_flag "profitable" evs = None
             /\ reported_flag "forceAwardDraw" evs = None
        else reported_flag "profitable" evs = Some profitable
             /\ reported_flag "forceAwardDraw" evs = Some forced)
    /\ (let forcing :=
          new_events (Part000.runDrawAuction
                        (Scenario.world000 (Some Part000.Award) true None 4%float)
                        Scenario.config) init in
        reported_profit forcing = Some ((-3)%float, false)
        /\ reported_flag "profitable" forcing = Some false
        /\ reported_flag "forceAwardDraw" forcing = Some true
        /\ dispatched forcing = true)
    /\ (let waiting :=
          new_events (Part000.runDrawAuction
                        (Scenario.world000 (Some Part000.Award) false None 4%float)
                        Scenario.config) init in
        reported_flag "profitable" waiting = Some false
        /\ reported_flag "forceAwardDraw" waiting = Some false
        /\ dispatched waiting = false)
    /\ reported_flag "forceAwardDraw" evsT = None
    /\ (dispatched evsT = true -> exists netT, reported_profit evsT = Some (netT, true))
    /\ (forall g : Z,
          rpc_estimateGas (DrawAuctionTs.rpc wt)
            (ts_finishDrawEstimatedCall config contractsT) = Some g ->
          (0 <= g)%Z ->
          let gasCostUsdT :=
            avgFeeUsd (rpc_feesUsd (DrawAuctionTs.rpc wt) (chainId config)
                         (g + 100000)
                         (DrawAuctionTs.nativeTokenMarketRateUsd contextT)
                         (ts_finishDrawCall config contractsT)) in
          let netT := JS.sub (DrawAuctionTs.finishDrawRewardUsd contextT) gasCostUsdT in
          let profitableT := JS.gt netT (minProfitThresholdUsd config) in
          let answered_again :=
            match rpc_estimateGasAgain (DrawAuctionTs.rpc wt)
                    (ts_finishDrawEstimatedCall config contractsT) with
            | Some _ => true
            | None => false
            end in
          if JS.strict_eq gasCostUsdT 0%float
          then reported_profit evsT = None /\ dispatched evsT = false
          else reported_profit evsT = Some (netT, profitableT)
               /\ dispatched evsT = (profitableT && answered_again)%bool).
Proof.
  intros w config context contracts wt contextT contractsT s
         gasCostUsd net profitable forced evs evsT.
  split; [reflexivity | ].
  split; [intros; reflexivity | ].
  split; [subst forced; apply andb_true_iff | ].
  subst evs evsT.
  rewrite (new_events_framed _ s (checkAwardDraw_framed w config context contracts)).
  rewrite (new_events_framed _ s (ts_checkFinishDraw_framed wt config contextT contractsT)).
  split; [ | split; [ | split; [ | split; [ | split; [ | split ] ] ] ] ].
  - unfold init. exec; first [reflexivity | congruence].
  - subst forced profitable net gasCostUsd. unfold init, awardDrawCall.
    exec; split; first [reflexivity | congruence].
  - vm_compute. repeat split; reflexivity.
  - vm_compute. repeat split; reflexivity.
  - unfold init. exec; reflexivity.
  - unfold init. exec; cbn; intros Hd; try discriminate Hd; eexists; reflexivity.
  - intros g Hg Hpos gasCostUsdT netT profitableT answered_again.
    subst answered_again profitableT netT gasCostUsdT.
    assert (Hb : (g + DrawAuctionTs.DRAW_GAS_LIMIT_BUFFER =? 0)%Z = false).
    { apply Z.eqb_neq. unfold DrawAuctionTs.DRAW_GAS_LIMIT_BUFFER. lia. }
    change 100000%Z with DrawAuctionTs.DRAW_GAS_LIMIT_BUFFER.
    unfold ts_finishDrawCall, ts_finishDrawEstimatedCall, init in *.
    exec; try congruence; split; reflexivity.
Qed.

(** The profitable finish draw of the scenario (reward $12, gas $3) is
    reported with a net profit of $9 and sent. *)
Lemma award_dispatch_rule_witness :
  let evs :=
    new_events (DrawAuctionTs.checkFinishDraw
                  (Scenario.worldTs (Some DrawAuctionTs.Finish) 12%float
                     (Some 200000%Z) 3%float)
                  Scenario.config
                  (Scenario.contextTs (Some DrawAuctionTs.Finish) 12%float)
                  Scenario.contractsTs) init in
  reported_profit evs = Some (9%float, true) /\ dispatched evs = true.
Proof.
  exact (proj2 (proj2 (proj2 (proj2 (proj2 (proj2 (proj2 (proj2 (proj2
    (award_dispatch_rule
       (Scenario.world000 (Some Part000.Award) true None 4%float)
       Scenario.config
       (Scenario.context000 (Some Part000.Award) true)
       Scenario.contracts000
       (Scenario.worldTs (Some DrawAuctionTs.Finish) 12%float (Some 200000%Z) 3%float)
       (Scenario.contextTs (Some DrawAuctionTs.Finish) 12%float)
       Scenario.contractsTs init)))))))))
    200000%Z eq_refl ltac:(lia)).
Defined.

(** ** A failed or zero gas estimate *)

(** [getGasCostUsd] itself answers $0 to an [undefined] or zero gas limit,
    without asking the collaborators anything, in both versions. *)
Lemma getGasCostUsd_zero_guard :
  forall (w : Part000.World) (wt : DrawAuctionTs.World) (config : DrawAuctionConfig)
         (rateUsd : JS.number) (populatedTx : call) (s : state),
    let quiet :=
      (Returned 0%float,
       {| store := store s;
          trace := trace s ++ [Console (LogText "Estimated gas limit is 0 ...")] |}) in
    Part000.getGasCostUsd w config None rateUsd populatedTx s = quiet
    /\ Part000.getGasCostUsd w config (Some 0%Z) rateUsd populatedTx s = quiet
    /\ DrawAuctionTs.getGasCostUsd wt config None rateUsd populatedTx s = quiet
    /\ DrawAuctionTs.getGasCostUsd wt config (Some 0%Z) rateUsd populatedTx s = quiet.
Proof.
  intros. subst quiet. repeat split; reflexivity.
Qed.

(** In part_000 a rejected or zero estimate ends the start-draw check
    with no gas price asked, nothing priced and nothing sent, whatever the
    reward. *)
Lemma part000_unknown_gas_aborts :
  forall (w : Part000.World) (config : DrawAuctionConfig)
         (context : Part000.DrawAuctionContext)
         (contracts : Part000.DrawAuctionContracts) (s : state),
    rpc_estimateGas (Part000.rpc w) (startDrawCall config context contracts) = None
    \/ rpc_estimateGas (Part000.rpc w) (startDrawCall config context contracts) = Some 0%Z ->
    let evs := new_events (Part000.checkStartDraw w config context contracts) s in
    fst (Part000.checkStartDraw w config context contracts s) = Returned tt
    /\ sends evs = [] /\ conversions evs = []
    /\ In (Console (LogText
             "Gas cost is $0. Unable to determine profitability. Exiting ...")) evs.
Proof.
  intros w config context contracts s H evs. subst evs.
  rewrite (new_events_framed _ s (checkStartDraw_framed w config context contracts)).
  rewrite (framed_outcome _ s (checkStartDraw_framed w config context contracts)).
  unfold startDrawCall in H. unfold init.
  destruct H as [H | H]; exec; rewrite ?H; exec;
    try discriminate; repeat split; cbn; tauto.
Qed.

(** In the finish draw of drawAuction.ts the buffer is added before
    [getGasCostUsd] looks at the estimate: a rejected estimate ends the check
    in a TypeError with nothing priced, and an estimate of zero is priced as
    100,000 gas units. *)
Lemma ts_finish_unknown_gas_reaches_no_guard :
  forall (wt : DrawAuctionTs.World) (config : DrawAuctionConfig)
         (contextT : DrawAuctionTs.DrawAuctionContext)
         (contractsT : DrawAuctionTs.DrawAuctionContracts) (s : state),
    let evs := new_events (DrawAuctionTs.checkFinishDraw wt config contextT contractsT) s in
    let answer :=
      rpc_estimateGas (DrawAuctionTs.rpc wt)
        (ts_finishDrawEstimatedCall config contractsT) in
    (answer = None ->
     fst (DrawAuctionTs.checkFinishDraw wt config contextT contractsT s) =
       Thrown (TypeError "Cannot read properties of undefined (reading 'add')")
     /\ conversions evs = [] /\ sends evs = []
     /\ ~ In (Console (LogText
                "Gas cost is $0. Unable to determine profitability. Exiting ...")) evs)
    /\ (answer = Some 0%Z ->
        conversions evs =
          [GetFeesUsd (chainId config) 100000
             (DrawAuctionTs.nativeTokenMarketRateUsd contextT)
             (ts_finishDrawCall config contractsT)]).
Proof.
  intros wt config contextT contractsT s evs answer. subst evs answer.
  rewrite (new_events_framed _ s (ts_checkFinishDraw_framed wt config contextT contractsT)).
  rewrite (framed_outcome _ s (ts_checkFinishDraw_framed wt config contextT contractsT)).
  unfold ts_finishDrawEstimatedCall, ts_finishDrawCall, init.
  split; intros H.
  - exec. repeat split; try reflexivity.
    cbn. intros [A | [A | [A | A]]]; first [discriminate A | contradiction].
  - exec; try congruence; reflexivity.
Qed.

(** C3. The drawAuction.ts version adds its buffer to the finish-draw
    estimate before [getGasCostUsd] looks at it. With the estimate rejected,
    the finish-draw cycle ends in a TypeError (.add on undefined) instead of
    a $0 cost; with an estimate of zero, 100,000 gas units are priced and,
    the reward being large enough, the transaction is sent. The part_000
    version, whose start draw is the one that estimates, reports a $0 gas
    cost on the same answers and sends nothing. *)
Theorem ts_buffer_defeats_zero_gas_guard :
  let add_on_undefined :=
    TypeError "Cannot read properties of undefined (reading 'add')" in
  let finish_rejected :=
    DrawAuctionTs.runDrawAuction
      (Scenario.worldTs (Some DrawAuctionTs.Finish) 12%float None 3%float)
      Scenario.config init in
  let finish_zero :=
    DrawAuctionTs.runDrawAuction
      (Scenario.worldTs (Some DrawAuctionTs.Finish) 12%float (Some 0%Z) 3%float)
      Scenario.config init in
  let sibling_rejected :=
    Part000.runDrawAuction
      (Scenario.world000 (Some Part000.Start) false None 3%float)
      Scenario.config init in
  let sibling_zero :=
    Part000.runDrawAuction
      (Scenario.world000 (Some Part000.Start) false (Some 0%Z) 3%float)
      Scenario.config init in
  fst finish_rejected = Thrown add_on_undefined
  /\ conversions (trace (snd finish_rejected)) = []
  /\ fst finish_zero = Returned tt
  /\ map (fun e => match e with GetFeesUsd _ g _ _ => Some g | _ => None end)
         (conversions (trace (snd finish_zero))) = [Some 100000%Z]
  /\ reported_profit (trace (snd finish_zero)) = Some (9%float, true)
  /\ dispatched (trace (snd finish_zero)) = true
  /\ fst sibling_rejected = Returned tt
  /\ dispatched (trace (snd sibling_rejected)) = false
  /\ conversions (trace (snd sibling_rejected)) = []
  /\ fst sibling_zero = Returned tt
  /\ dispatched (trace (snd sibling_zero)) = false
  /\ conversions (trace (snd sibling_zero)) = [].
Proof.
  vm_compute. repeat split; reflexivity.
Qed.

(** ** What is estimated, what is priced, what is sent *)

(** C5, as stated, fails on the award draw of part_000: the cycle prices
    400,000 gas units and sends the awardDraw transaction without having
    requested any gas estimate. *)
Lemma award_draw_priced_without_estimate :
  let evs :=
    new_events (Part000.runDrawAuction
                  (Scenario.world000 (Some Part000.Award) true (Some 200000%Z) 4%float)
                  Scenario.config) init in
  let awardDraw := awardDrawCall Scenario.config Scenario.contracts000 in
  estimates evs = []
  /\ conversions evs = [GetFeesUsd 10 400000 2000%float awardDraw]
  /\ sends evs =
       [SendPopulatedTx 10 awardDraw 800000%float 1000000000 false
          [("rewardRecipient", VStr "0xRecipient")]].
Proof.
  vm_compute. repeat split; reflexivity.
Qed.

(** C5, amended. In the start draw of part_000 a gas estimate is always
    requested, and every call that is estimated, priced or sent during the
    check is one and the same call: startDraw on RngWitnet with the same
    arguments and the same attached value. In the award draw of part_000 no
    estimate is requested: the cost is that of 400,000 gas units for the
    awardDraw call that is then sent. *)
Theorem start_draw_estimate_is_for_the_sent_call :
  forall (config : DrawAuctionConfig)
         (w : Part000.World) (context : Part000.DrawAuctionContext)
         (contracts : Part000.DrawAuctionContracts)
         (s : state),
    let evs := new_events (Part000.checkStartDraw w config context contracts) s in
    let evsA := new_events (Part000.checkAwardDraw w config context contracts) s in
    In (EstimateGas (startDrawCall config context contracts)) evs
    /\ (forall e c, In e evs -> event_call e = Some c ->
                    c = startDrawCall config context contracts)
    /\ estimates evsA = []
    /\ conversions evsA =
         [GetFeesUsd (chainId config) 400000
            (Part000.nativeTokenMarketRateUsd context)
            (awardDrawCall config contracts)]
    /\ (forall e c, In e evsA -> event_call e = Some c ->
                    c = awardDrawCall config contracts).
Proof.
  intros config w context contracts s evs evsA.
  subst evs evsA.
  rewrite (new_events_framed _ s (checkStartDraw_framed w config context contracts)).
  rewrite (new_events_framed _ s (checkAwardDraw_framed w config context contracts)).
  unfold startDrawCall, awardDrawCall, init.
  split; [ | split; [ | split; [ | split ] ] ].
  - exec; cbn; tauto.
  - exec; intros ev cl Hin Hc; each_event Hin; cbn in Hc;
      try discriminate Hc; injection Hc as <-; reflexivity.
  - exec; reflexivity.
  - exec; reflexivity.
  - exec; intros ev cl Hin Hc; each_event Hin; cbn in Hc;
      try discriminate Hc; injection Hc as <-; reflexivity.
Qed.

(** The transaction that the part_000 scenario sends is the startDraw call
    whose gas it estimated, with twice the fee of 7 base units attached. *)
Lemma start_draw_estimate_is_for_the_sent_call_witness :
  let w := Scenario.world000 (Some Part000.Start) false (Some 200000%Z) 3%float in
  let context := Scenario.context000 (Some Part000.Start) false in
  let c :=
    {| call_to := "0xRngWitnet"; call_fn := "startDraw";
       call_args := [VStr "0xDrawManager"; VStr "0xRecipient"];
       call_value := Some (VBig 14) |} in
  let e := SendPopulatedTx 10 c 850000%float 1000000000 false
             [ ("drawManagerAddress", VStr "0xDrawManager");
               ("rewardRecipient", VStr "0xRecipient"); ("value", VBig 14) ] in
  In e (new_events
          (Part000.checkStartDraw w Scenario.config context Scenario.contracts000) init)
  /\ In (EstimateGas c)
       (new_events
          (Part000.checkStartDraw w Scenario.config context Scenario.contracts000) init)
  /\ c = startDrawCall Scenario.config context Scenario.contracts000.
Proof.
  intros w context c e.
  assert (Hin : In e (new_events
          (Part000.checkStartDraw w Scenario.config context Scenario.contracts000) init))
    by find_event.
  pose proof (start_draw_estimate_is_for_the_sent_call Scenario.config w context
                Scenario.contracts000 init) as H.
  cbv zeta in H.
  split; [exact Hin | split ].
  - exact (proj1 H).
  - exact (proj1 (proj2 H) e c Hin eq_refl).
Defined.

(** In the finish draw of drawAuction.ts the gas that is estimated is that
    of [startDraw(rewardRecipient)] on DrawManager, while the call that is
    priced and sent is [finishDraw(rewardRecipient)]. *)
Lemma ts_finish_draw_estimates_another_call :
  let evs :=
    new_events (DrawAuctionTs.runDrawAuction
                  (Scenario.worldTs (Some DrawAuctionTs.Finish) 12%float
                     (Some 200000%Z) 3%float)
                  Scenario.config) init in
  map event_call (estimates evs) =
    [ Some (ts_finishDrawEstimatedCall Scenario.config Scenario.contractsTs);
      Some (ts_finishDrawEstimatedCall Scenario.config Scenario.contractsTs) ]
  /\ map event_call (conversions evs) =
       [ Some (ts_finishDrawCall Scenario.config Scenario.contractsTs) ]
  /\ map event_call (sends evs) =
       [ Some (ts_finishDrawCall Scenario.config Scenario.contractsTs) ]
  /\ call_fn (ts_finishDrawEstimatedCall Scenario.config Scenario.contractsTs) = "startDraw"
  /\ call_fn (ts_finishDrawCall Scenario.config Scenario.contractsTs) = "finishDraw".
Proof.
  vm_compute. repeat split; reflexivity.
Qed.

(** ** The gas buffer *)

(** C6, as stated, fails on part_000: an estimate of 200,000 gas units for
    startDraw is converted to USD as 200,000 units, not 300,000. *)
Lemma part000_estimate_priced_unbuffered :
  let evs :=
    new_events (Part000.runDrawAuction
                  (Scenario.world000 (Some Part000.Start) false (Some 200000%Z) 3%float)
                  Scenario.config) init in
  estimates evs = [EstimateGas (startDrawCall Scenario.config
                                  (Scenario.context000 (Some Part000.Start) false)
                                  Scenario.contracts000)]
  /\ conversions evs =
       [GetFeesUsd 10 200000 2000%float
          (startDrawCall Scenario.config
             (Scenario.context000 (Some Part000.Start) false)
             Scenario.contracts000)]
  /\ (200000 <> 200000 + 100000)%Z.
Proof.
  vm_compute. repeat split; try reflexivity. discriminate.
Qed.

(** C6, amended. In the finish draw of drawAuction.ts a successful
    estimate of [g] gas units is priced as [g + 100000] units, the sum being
    formed before the fee conversion is asked. In part_000 there is no
    buffer: a non-zero start-draw estimate is priced as it is, and the award
    draw at a fixed 400,000 units. *)
Theorem gas_buffer_in_drawAuctionTs_only :
  forall (config : DrawAuctionConfig)
         (wt : DrawAuctionTs.World) (contextT : DrawAuctionTs.DrawAuctionContext)
         (contractsT : DrawAuctionTs.DrawAuctionContracts)
         (w : Part000.World) (context : Part000.DrawAuctionContext)
         (contracts : Part000.DrawAuctionContracts)
         (s : state) (g : Z),
    (0 <= g)%Z ->
    DrawAuctionTs.DRAW_GAS_LIMIT_BUFFER = 100000%Z
    /\ (rpc_estimateGas (DrawAuctionTs.rpc wt)
          (ts_finishDrawEstimatedCall config contractsT) = Some g ->
        conversions
          (new_events (DrawAuctionTs.checkFinishDraw wt config contextT contractsT) s) =
        [GetFeesUsd (chainId config) (g + 100000)
           (DrawAuctionTs.nativeTokenMarketRateUsd contextT)
           (ts_finishDrawCall config contractsT)])
    /\ (rpc_estimateGas (Part000.rpc w) (startDrawCall config context contracts) = Some g ->
        g <> 0%Z ->
        conversions
          (new_events (Part000.checkStartDraw w config context contracts) s) =
        [GetFeesUsd (chainId config) g
           (Part000.nativeTokenMarketRateUsd context)
           (startDrawCall config context contracts)])
    /\ conversions
         (new_events (Part000.checkAwardDraw w config context contracts) s) =
       [GetFeesUsd (chainId config) 400000
          (Part000.nativeTokenMarketRateUsd context)
          (awardDrawCall config contracts)].
Proof.
  intros config wt contextT contractsT w context contracts s g Hg.
  rewrite (new_events_framed _ s (checkStartDraw_framed w config context contracts)).
  rewrite (new_events_framed _ s (ts_checkFinishDraw_framed wt config contextT contractsT)).
  rewrite (new_events_framed _ s (checkAwardDraw_framed w config context contracts)).
  assert (Hb : (g + DrawAuctionTs.DRAW_GAS_LIMIT_BUFFER =? 0)%Z = false).
  { apply Z.eqb_neq. unfold DrawAuctionTs.DRAW_GAS_LIMIT_BUFFER. lia. }
  unfold startDrawCall, ts_finishDrawCall,
    ts_finishDrawEstimatedCall, awardDrawCall, init.
  split; [reflexivity | ].
  split; [ | split ].
  - intros He. exec; try congruence; reflexivity.
  - intros He Hz. apply Z.eqb_neq in Hz. exec; try congruence; reflexivity.
  - exec; reflexivity.
Qed.

(** A finish-draw estimate of 200,000 gas units is priced as 300,000. *)
Lemma gas_buffer_in_drawAuctionTs_only_witness :
  conversions
    (new_events (DrawAuctionTs.checkFinishDraw
                   (Scenario.worldTs (Some DrawAuctionTs.Finish) 12%float
                      (Some 200000%Z) 3%float)
                   Scenario.config
                   (Scenario.contextTs (Some DrawAuctionTs.Finish) 12%float)
                   Scenario.contractsTs) init) =
  [GetFeesUsd 10 300000 2000%float
     (ts_finishDrawCall Scenario.config Scenario.contractsTs)].
Proof.
  refine (proj1 (proj2
    (gas_buffer_in_drawAuctionTs_only Scenario.config
       (Scenario.worldTs (Some DrawAuctionTs.Finish) 12%float (Some 200000%Z) 3%float)
       (Scenario.contextTs (Some DrawAuctionTs.Finish) 12%float)
       Scenario.contractsTs
       (Scenario.world000 (Some Part000.Start) false (Some 200000%Z) 3%float)
       (Scenario.context000 (Some Part000.Start) false)
       Scenario.contracts000 init 200000%Z _)) eq_refl).
  lia.
Defined.

(** ** The gas limit of the dispatched transaction *)

(** C7, as stated, fails on drawAuction.ts: with an estimate of 200,000 gas
    units the finish-draw transaction is handed over with a gas limit of
    300,000, not 800,000. *)
Lemma ts_gas_limit_follows_estimate :
  let finish :=
    new_events (DrawAuctionTs.runDrawAuction
                  (Scenario.worldTs (Some DrawAuctionTs.Finish) 12%float
                     (Some 200000%Z) 3%float)
                  Scenario.config) init in
  map event_gas_limit (sends finish) = [Some 300000%float]
  /\ PrimFloat.eqb 300000%float 800000%float = false.
Proof.
  vm_compute. repeat split; reflexivity.
Qed.

(** C7, amended. In part_000 every transaction handed to the relay carries
    a fixed gas limit, 850,000 for startDraw and 800,000 for awardDraw,
    whatever was estimated. In the finish draw of drawAuction.ts the gas
    limit is the estimate requested again at sending time, as a number, plus
    100,000. *)
Theorem gas_limit_fixed_in_part000_only :
  forall (config : DrawAuctionConfig)
         (w : Part000.World) (context : Part000.DrawAuctionContext)
         (contracts : Part000.DrawAuctionContracts)
         (wt : DrawAuctionTs.World) (contextT : DrawAuctionTs.DrawAuctionContext)
         (contractsT : DrawAuctionTs.DrawAuctionContracts)
         (s : state),
    (forall e gasLimit,
        In e (new_events (Part000.checkStartDraw w config context contracts) s) ->
        event_gas_limit e = Some gasLimit -> gasLimit = 850000%float)
    /\ (forall e gasLimit,
        In e (new_events (Part000.checkAwardDraw w config context contracts) s) ->
        event_gas_limit e = Some gasLimit -> gasLimit = 800000%float)
    /\ (forall e gasLimit,
        In e (new_events (DrawAuctionTs.checkFinishDraw wt config contextT contractsT) s) ->
        event_gas_limit e = Some gasLimit ->
        exists g,
          rpc_estimateGasAgain (DrawAuctionTs.rpc wt)
            (ts_finishDrawEstimatedCall config contractsT) = Some g
          /\ gasLimit = JS.add (JS.NumberOfBigNumber g) (JS.of_int 100000))
    /\ map event_gas_limit
         (sends (new_events
                   (Part000.runDrawAuction
                      (Scenario.world000 (Some Part000.Start) false (Some 200000%Z) 3%float)
                      Scenario.config) init)) = [Some 850000%float]
    /\ map event_gas_limit
         (sends (new_events
                   (Part000.runDrawAuction
                      (Scenario.world000 (Some Part000.Award) true (Some 200000%Z) 4%float)
                      Scenario.config) init)) = [Some 800000%float]
    /\ JS.add (JS.NumberOfBigNumber 200000) (JS.of_int 100000) = 300000%float.
Proof.
  intros config w context contracts wt contextT contractsT s.
  rewrite (new_events_framed _ s (checkStartDraw_framed w config context contracts)).
  rewrite (new_events_framed _ s (ts_checkFinishDraw_framed wt config contextT contractsT)).
  rewrite (new_events_framed _ s (checkAwardDraw_framed w config context contracts)).
  unfold ts_finishDrawEstimatedCall, init.
  split; [ | split; [ | split; [ | split; [ | split ] ] ] ].
  - exec; intros ev gl Hin Hg; each_event Hin; cbn in Hg;
      try discriminate Hg; injection Hg as <-; reflexivity.
  - exec; intros ev gl Hin Hg; each_event Hin; cbn in Hg;
      try discriminate Hg; injection Hg as <-; reflexivity.
  - exec; intros ev gl Hin Hg; each_event Hin; cbn in Hg;
      try discriminate Hg; injection Hg as <-;
      eexists; repeat split; eassumption.
  - vm_compute. reflexivity.
  - vm_compute. reflexivity.
  - vm_compute. reflexivity.
Qed.

(** The start-draw transaction of the part_000 scenario is sent with 850,000. *)
Lemma gas_limit_fixed_in_part000_only_witness :
  let c := startDrawCall Scenario.config
             (Scenario.context000 (Some Part000.Start) false) Scenario.contracts000 in
  let e := SendPopulatedTx 10 c 850000%float 1000000000 false
             [ ("drawManagerAddress", VStr "0xDrawManager");
               ("rewardRecipient", VStr "0xRecipient"); ("value", VBig 14) ] in
  In e (new_events
          (Part000.checkStartDraw
             (Scenario.world000 (Some Part000.Start) false (Some 200000%Z) 3%float)
             Scenario.config
             (Scenario.context000 (Some Part000.Start) false)
             Scenario.contracts000) init)
  /\ event_gas_limit e = Some 850000%float.
Proof.
  intros c e.
  assert (Hin : In e (new_events
          (Part000.checkStartDraw
             (Scenario.world000 (Some Part000.Start) false (Some 200000%Z) 3%float)
             Scenario.config
             (Scenario.context000 (Some Part000.Start) false)
             Scenario.contracts000) init)) by find_event.
  split; [exact Hin | ].
  exact (f_equal Some
    (proj1
      (gas_limit_fixed_in_part000_only Scenario.config
         (Scenario.world000 (Some Part000.Start) false (Some 200000%Z) 3%float)
         (Scenario.context000 (Some Part000.Start) false)
         Scenario.contracts000
         (Scenario.worldTs (Some DrawAuctionTs.Finish) 12%float (Some 200000%Z) 3%float)
         (Scenario.contextTs (Some DrawAuctionTs.Finish) 12%float)
         Scenario.contractsTs init)
      e 850000%float Hin eq_refl)).
Defined.

(** ** Not-a-number *)

Section NaN.

Lemma Prim2SF_nan : Prim2SF nan = S754_nan.
Proof. reflexivity. Qed.

Lemma SFcompare_refl (s : spec_float) :
  s <> S754_nan -> SFcompare s s = Some Eq.
Proof.
  destruct s as [sg | sg | | sg m e]; simpl; intros H;
    try reflexivity; try (destruct sg; reflexivity); try contradiction.
  destruct sg; rewrite Z.compare_refl, Pos.compare_cont_refl; reflexivity.
Qed.

(** Only NaN differs from itself. *)
Lemma is_NaN_eq (x : JS.number) : is_NaN x = true -> x = nan.
Proof.
  unfold is_NaN, JS.strict_eq. rewrite eqb_spec. unfold SFeqb. intros H.
  apply Prim2SF_inj. rewrite Prim2SF_nan.
  destruct (Prim2SF x) as [sg | sg | | sg m e] eqn:E; try reflexivity;
    rewrite SFcompare_refl in H by discriminate; discriminate H.
Qed.

Lemma sub_nan_r (x : JS.number) : JS.sub x nan = nan.
Proof.
  unfold JS.sub. apply Prim2SF_inj. rewrite sub_spec, Prim2SF_nan.
  destruct (Prim2SF x); reflexivity.
Qed.

Lemma sub_nan_l (y : JS.number) : JS.sub nan y = nan.
Proof.
  unfold JS.sub. apply Prim2SF_inj. rewrite sub_spec, Prim2SF_nan.
  reflexivity.
Qed.

Lemma gt_nan_l (y : JS.number) : JS.gt nan y = false.
Proof.
  unfold JS.gt. rewrite ltb_spec, Prim2SF_nan. unfold SFltb.
  destruct (Prim2SF y); reflexivity.
Qed.

Lemma gt_nan_r (x : JS.number) : JS.gt x nan = false.
Proof.
  unfold JS.gt. rewrite ltb_spec, Prim2SF_nan. reflexivity.
Qed.

Lemma nan_is_not_zero : JS.strict_eq nan 0%float = false.
Proof. reflexivity. Qed.

Lemma zero_is_zero : JS.strict_eq 0%float 0%float = true.
Proof. reflexivity. Qed.

End NaN.

(** Runs the program text, rewriting with [rw] wherever it applies. *)
Ltac exec_rw rw :=
  repeat (monad_red; cbn; try first [rw | store_step | case_step]).

Ltac nan_rw :=
  first [ rewrite sub_nan_r | rewrite sub_nan_l | rewrite gt_nan_l
        | rewrite gt_nan_r | rewrite nan_is_not_zero | rewrite zero_is_zero ].

(** ** The start-draw decision *)

(** X1. In both versions the start-draw transaction is handed to the relay
    exactly when the check printed a profit table whose verdict is
    profitable; a check that never got to the table (gas cost $0, or an
    exception on the way) sends nothing. In part_000, a non-zero estimate
    [g] leads to the table unless the fee conversion of [g] units answers
    $0, and the table then shows reward - fee - rngFee against the threshold. *)
Theorem start_draw_sent_iff_reported_profitable :
  forall (config : DrawAuctionConfig)
         (w : Part000.World) (context : Part000.DrawAuctionContext)
         (contracts : Part000.DrawAuctionContracts)
         (wt : DrawAuctionTs.World) (contextT : DrawAuctionTs.DrawAuctionContext)
         (contractsT : DrawAuctionTs.DrawAuctionContracts)
         (s : state),
    let evs := new_events (Part000.checkStartDraw w config context contracts) s in
    let evsT := new_events (DrawAuctionTs.checkStartDraw wt config contextT contractsT) s in
    dispatched evs = match reported_profit evs with
                     | Some (_, p) => p
                     | None => false
                     end
    /\ dispatched evsT = match reported_profit evsT with
                         | Some (_, p) => p
                         | None => false
                         end
    /\ (forall g,
          rpc_estimateGas (Part000.rpc w) (startDrawCall config context contracts) = Some g ->
          g <> 0%Z ->
          let fee :=
            avgFeeUsd (rpc_feesUsd (Part000.rpc w) (chainId config) g
                         (Part000.nativeTokenMarketRateUsd context)
                         (startDrawCall config context contracts)) in
          let net := JS.sub (JS.sub (Part000.startDrawFeeUsd context) fee)
                       (Part000.rngFeeEstimateUsd context) in
          reported_profit evs =
            if JS.strict_eq fee 0%float then None
            else Some (net, JS.gt net (minProfitThresholdUsd config))).
Proof.
  intros config w context contracts wt contextT contractsT s evs evsT.
  subst evs evsT.
  rewrite (new_events_framed _ s (checkStartDraw_framed w config context contracts)).
  rewrite (new_events_framed _ s (ts_checkStartDraw_framed wt config contextT contractsT)).
  unfold startDrawCall, init.
  split; [ | split ].
  - exec; reflexivity.
  - exec; reflexivity.
  - intros g Hg Hz. apply Z.eqb_neq in Hz.
    exec; try congruence; reflexivity.
Qed.

(** A start-draw estimate of 200,000 units priced at $3: the table shows a
    net profit of $7 and the verdict profitable. *)
Lemma start_draw_sent_iff_reported_profitable_witness :
  reported_profit
    (new_events
       (Part000.checkStartDraw
          (Scenario.world000 (Some Part000.Start) false (Some 200000%Z) 3%float)
          Scenario.config
          (Scenario.context000 (Some Part000.Start) false)
          Scenario.contracts000) init) = Some (7%float, true).
Proof.
  refine (proj2 (proj2
    (start_draw_sent_iff_reported_profitable Scenario.config
       (Scenario.world000 (Some Part000.Start) false (Some 200000%Z) 3%float)
       (Scenario.context000 (Some Part000.Start) false)
       Scenario.contracts000
       (Scenario.worldTs (Some DrawAuctionTs.Start) 12%float (Some 200000%Z) 3%float)
       (Scenario.contextTs (Some DrawAuctionTs.Start) 12%float)
       Scenario.contractsTs init))
    200000%Z eq_refl _).
  discriminate.
Defined.

(** ** One cycle, one submission *)

(** X2. Whatever the snapshot and the collaborators answer, a run of
    either version hands at most one transaction to the relay. *)
Theorem at_most_one_submission_per_cycle :
  forall (w : Part000.World) (wt : DrawAuctionTs.World)
         (config : DrawAuctionConfig) (s : state),
    List.length (sends (new_events (Part000.runDrawAuction w config) s)) <= 1
    /\ List.length (sends (new_events (DrawAuctionTs.runDrawAuction wt config) s)) <= 1.
Proof.
  intros w wt config s.
  rewrite (new_events_framed _ s (runDrawAuction_framed w config)).
  rewrite (new_events_framed _ s (ts_runDrawAuction_framed wt config)).
  unfold init. split.
  - destruct (Part000.drawAuctionState (Part000.snapshot w)) as [[ | ] | ] eqn:E;
      exec; cbn; lia.
  - destruct (DrawAuctionTs.drawAuctionState (DrawAuctionTs.snapshot wt))
      as [[ | ] | ] eqn:E;
      exec; cbn; lia.
Qed.

(** ** The relay's answer *)

(** X3. When the relay answers every submission with a hash, a cycle of
    part_000 prints [Transaction sent!] exactly when it handed a transaction
    over, and then prints that hash. *)
Theorem part000_reports_sent_exactly_when_handed_over :
  forall (w : Part000.World) (config : DrawAuctionConfig) (s : state) (hash : string),
    (forall tx, rpc_send (Part000.rpc w) tx = Some hash) ->
    let evs := new_events (Part000.runDrawAuction w config) s in
    reported_sent evs = dispatched evs
    /\ (dispatched evs = true -> In (Console (LogText hash)) evs).
Proof.
  intros w config s hash H evs. subst evs.
  rewrite (new_events_framed _ s (runDrawAuction_framed w config)).
  unfold init.
  destruct (Part000.drawAuctionState (Part000.snapshot w)) as [[ | ] | ] eqn:E;
    exec_rw ltac:(rewrite H);
    (split; [reflexivity | ]);
    cbn; intros Hd; try discriminate Hd; tauto.
Qed.

(** The forced award of the specification's scenario, accepted by the relay. *)
Lemma part000_reports_sent_exactly_when_handed_over_witness :
  let w := Scenario.world000 (Some Part000.Award) true None 4%float in
  let evs := new_events (Part000.runDrawAuction w Scenario.config) init in
  reported_sent evs = true /\ In (Console (LogText "0xhash")) evs.
Proof.
  intros w evs.
  pose proof (part000_reports_sent_exactly_when_handed_over w Scenario.config init
                "0xhash" (fun _ => eq_refl)) as H.
  cbv zeta in H. fold evs in H.
  split.
  - rewrite (proj1 H). reflexivity.
  - apply (proj2 H). reflexivity.
Defined.

(** X4. Neither version catches a refusal of the relay: when the relay
    refuses, a cycle that handed a transaction over ends with the relay's
    rejection, and no cycle prints [Transaction sent!]. *)
Theorem relay_refusal_ends_the_cycle :
  forall (w : Part000.World) (wt : DrawAuctionTs.World)
         (config : DrawAuctionConfig) (s : state),
    (forall tx, rpc_send (Part000.rpc w) tx = None) ->
    (forall tx, rpc_send (DrawAuctionTs.rpc wt) tx = None) ->
    let evs := new_events (Part000.runDrawAuction w config) s in
    let evsT := new_events (DrawAuctionTs.runDrawAuction wt config) s in
    (dispatched evs = true ->
     fst (Part000.runDrawAuction w config s) = Thrown (Rejected "sendPopulatedTx"))
    /\ reported_sent evs = false
    /\ (dispatched evsT = true ->
        fst (DrawAuctionTs.runDrawAuction wt config s) =
          Thrown (Rejected "sendPopulatedTx"))
    /\ reported_sent evsT = false.
Proof.
  intros w wt config s H Ht evs evsT. subst evs evsT.
  rewrite (new_events_framed _ s (runDrawAuction_framed w config)).
  rewrite (framed_outcome _ s (runDrawAuction_framed w config)).
  rewrite (new_events_framed _ s (ts_runDrawAuction_framed wt config)).
  rewrite (framed_outcome _ s (ts_runDrawAuction_framed wt config)).
  unfold init.
  split; [ | split; [ | split ] ].
  - destruct (Part000.drawAuctionState (Part000.snapshot w)) as [[ | ] | ] eqn:E;
      exec_rw ltac:(rewrite H); cbn; intros Hd; try discriminate Hd; reflexivity.
  - destruct (Part000.drawAuctionState (Part000.snapshot w)) as [[ | ] | ] eqn:E;
      exec_rw ltac:(rewrite H); reflexivity.
  - destruct (DrawAuctionTs.drawAuctionState (DrawAuctionTs.snapshot wt))
      as [[ | ] | ] eqn:E;
      exec_rw ltac:(rewrite Ht); cbn; intros Hd; try discriminate Hd; reflexivity.
  - destruct (DrawAuctionTs.drawAuctionState (DrawAuctionTs.snapshot wt))
      as [[ | ] | ] eqn:E;
      exec_rw ltac:(rewrite Ht); reflexivity.
Qed.

(** The profitable finish draw of the drawAuction.ts scenario and the
    profitable start draw of the part_000 scenario, refused by the relay. *)
Lemma relay_refusal_ends_the_cycle_witness :
  let w :=
    {| Part000.resolved := Scenario.contracts000;
       Part000.snapshot := Scenario.context000 (Some Part000.Start) false;
       Part000.rpc := refusing (Scenario.stub (Some 200000%Z) 3%float) |} in
  let wt :=
    {| DrawAuctionTs.resolved := Scenario.contractsTs;
       DrawAuctionTs.snapshot := Scenario.contextTs (Some DrawAuctionTs.Finish) 12%float;
       DrawAuctionTs.rpc := refusing (Scenario.stub (Some 200000%Z) 3%float) |} in
  fst (Part000.runDrawAuction w Scenario.config init) =
    Thrown (Rejected "sendPopulatedTx")
  /\ fst (DrawAuctionTs.runDrawAuction wt Scenario.config init) =
       Thrown (Rejected "sendPopulatedTx").
Proof.
  intros w wt.
  pose proof (relay_refusal_ends_the_cycle w wt Scenario.config init
                (fun _ => eq_refl) (fun _ => eq_refl)) as H.
  cbv zeta in H.
  split.
  - apply (proj1 H). reflexivity.
  - apply (proj1 (proj2 (proj2 H))). reflexivity.
Defined.

(** ** What is handed over with the transaction *)

(** X5. The private-relay flag follows the configuration for the
    start-draw transaction only: the award-draw and the finish-draw
    transactions are always handed over with the flag off. *)
Theorem private_relay_flag_only_for_start_draw :
  forall (config : DrawAuctionConfig)
         (w : Part000.World) (context : Part000.DrawAuctionContext)
         (contracts : Part000.DrawAuctionContracts)
         (wt : DrawAuctionTs.World) (contextT : DrawAuctionTs.DrawAuctionContext)
         (contractsT : DrawAuctionTs.DrawAuctionContracts)
         (s : state) (e : event) (flag : bool),
    event_flashbots e = Some flag ->
    (In e (new_events (Part000.checkStartDraw w config context contracts) s) ->
     flag = useFlashbots config)
    /\ (In e (new_events (Part000.checkAwardDraw w config context contracts) s) ->
        flag = false)
    /\ (In e (new_events (DrawAuctionTs.checkStartDraw wt config contextT contractsT) s) ->
        flag = useFlashbots config)
    /\ (In e (new_events (DrawAuctionTs.checkFinishDraw wt config contextT contractsT) s) ->
        flag = false).
Proof.
  intros config w context contracts wt contextT contractsT s e flag.
  rewrite (new_events_framed _ s (checkStartDraw_framed w config context contracts)).
  rewrite (new_events_framed _ s (ts_checkStartDraw_framed wt config contextT contractsT)).
  rewrite (new_events_framed _ s (ts_checkFinishDraw_framed wt config contextT contractsT)).
  rewrite (new_events_framed _ s (checkAwardDraw_framed w config context contracts)).
  unfold init. revert e flag.
  assert (G : forall evs (want : bool),
             Forall (fun e => forall f, event_flashbots e = Some f -> f = want) evs ->
             forall e flag, event_flashbots e = Some flag -> In e evs -> flag = want).
  { intros evs want HF e flag He Hin.
    rewrite Forall_forall in HF. exact (HF e Hin flag He). }
  intros e flag He.
  split; [ | split; [ | split ] ]; apply (G _ _) with (2 := He);
    exec; repeat constructor; cbn; intros f Hf;
    try discriminate Hf; injection Hf as <-; reflexivity.
Qed.

(** The forced award draw under a configuration with the private relay on. *)
Lemma private_relay_flag_only_for_start_draw_witness :
  let w := Scenario.world000 (Some Part000.Award) true None 4%float in
  let e := SendPopulatedTx 10 (awardDrawCall config_with_flashbots Scenario.contracts000)
             800000%float 1000000000 false [("rewardRecipient", VStr "0xRecipient")] in
  useFlashbots config_with_flashbots = true
  /\ In e (new_events
             (Part000.checkAwardDraw w config_with_flashbots
                (Scenario.context000 (Some Part000.Award) true)
                Scenario.contracts000) init)
  /\ event_flashbots e = Some false.
Proof.
  intros w e.
  assert (Hin : In e (new_events
             (Part000.checkAwardDraw w config_with_flashbots
                (Scenario.context000 (Some Part000.Award) true)
                Scenario.contracts000) init)) by find_event.
  split; [reflexivity | split; [exact Hin | ] ].
  exact (f_equal Some
    (proj1 (proj2
      (private_relay_flag_only_for_start_draw config_with_flashbots w
         (Scenario.context000 (Some Part000.Award) true) Scenario.contracts000
         (Scenario.worldTs (Some DrawAuctionTs.Finish) 12%float (Some 200000%Z) 3%float)
         (Scenario.contextTs (Some DrawAuctionTs.Finish) 12%float)
         Scenario.contractsTs init e false eq_refl)) Hin)).
Defined.



(** ** Not-a-number in the decision *)

(** X7. A gas cost that is NaN sends nothing: it passes the [=== 0] test,
    makes the net profit NaN, and NaN is neither above the threshold nor
    above -5. This holds for the four checks of the two versions. *)
Theorem nan_gas_cost_never_dispatches :
  forall (config : DrawAuctionConfig)
         (w : Part000.World) (context : Part000.DrawAuctionContext)
         (contracts : Part000.DrawAuctionContracts)
         (wt : DrawAuctionTs.World) (contextT : DrawAuctionTs.DrawAuctionContext)
         (contractsT : DrawAuctionTs.DrawAuctionContracts)
         (s : state),
    (forall chain g rate c,
        is_NaN (avgFeeUsd (rpc_feesUsd (Part000.rpc w) chain g rate c)) = true) ->
    (forall chain g rate c,
        is_NaN (avgFeeUsd (rpc_feesUsd (DrawAuctionTs.rpc wt) chain g rate c)) = true) ->
    dispatched (new_events (Part000.checkStartDraw w config context contracts) s) = false
    /\ dispatched (new_events (Part000.checkAwardDraw w config context contracts) s) = false
    /\ reported_flag "forceAwardDraw"
         (new_events (Part000.checkAwardDraw w config context contracts) s) = Some false
    /\ dispatched
         (new_events (DrawAuctionTs.checkStartDraw wt config contextT contractsT) s) = false
    /\ dispatched
         (new_events (DrawAuctionTs.checkFinishDraw wt config contextT contractsT) s) = false.
Proof.
  intros config w context contracts wt contextT contractsT s H Ht.
  assert (Hn : forall chain g rate c,
             avgFeeUsd (rpc_feesUsd (Part000.rpc w) chain g rate c) = nan)
    by (intros; apply is_NaN_eq, H).
  assert (Hnt : forall chain g rate c,
             avgFeeUsd (rpc_feesUsd (DrawAuctionTs.rpc wt) chain g rate c) = nan)
    by (intros; apply is_NaN_eq, Ht).
  rewrite (new_events_framed _ s (checkStartDraw_framed w config context contracts)).
  rewrite (new_events_framed _ s (ts_checkStartDraw_framed wt config contextT contractsT)).
  rewrite (new_events_framed _ s (ts_checkFinishDraw_framed wt config contextT contractsT)).
  rewrite (new_events_framed _ s (checkAwardDraw_framed w config context contracts)).
  unfold init, Part000.MAX_FORCE_RELAY_LOSS_THRESHOLD_USD.
  split; [ | split; [ | split; [ | split ] ] ].
  - exec_rw ltac:(first [rewrite Hn | nan_rw]); reflexivity.
  - exec_rw ltac:(first [rewrite Hn | nan_rw | rewrite andb_false_r]); reflexivity.
  - exec_rw ltac:(first [rewrite Hn | nan_rw | rewrite andb_false_r]); reflexivity.
  - exec_rw ltac:(first [rewrite Hnt | nan_rw]); reflexivity.
  - exec_rw ltac:(first [rewrite Hnt | nan_rw]); reflexivity.
Qed.

(** The forced award of the scenario, with a fee conversion that answers NaN. *)
Lemma nan_gas_cost_never_dispatches_witness :
  dispatched
    (new_events
       (Part000.checkAwardDraw
          (Scenario.world000 (Some Part000.Award) true None nan)
          Scenario.config (Scenario.context000 (Some Part000.Award) true)
          Scenario.contracts000) init) = false.
Proof.
  exact (proj1 (proj2
    (nan_gas_cost_never_dispatches Scenario.config
       (Scenario.world000 (Some Part000.Award) true None nan)
       (Scenario.context000 (Some Part000.Award) true) Scenario.contracts000
       (Scenario.worldTs (Some DrawAuctionTs.Finish) 12%float (Some 200000%Z) nan)
       (Scenario.contextTs (Some DrawAuctionTs.Finish) 12%float)
       Scenario.contractsTs init
       (fun _ _ _ _ => eq_refl) (fun _ _ _ _ => eq_refl)))).
Defined.

(** X8. With a threshold that is NaN nothing is ever profitable: the
    start-draw transaction (both versions) and the finish-draw transaction
    are never sent, and the award-draw transaction of part_000 is sent
    exactly when it is forced. *)
Theorem nan_threshold_leaves_only_the_forced_award :
  forall (config : DrawAuctionConfig)
         (w : Part000.World) (context : Part000.DrawAuctionContext)
         (contracts : Part000.DrawAuctionContracts)
         (wt : DrawAuctionTs.World) (contextT : DrawAuctionTs.DrawAuctionContext)
         (contractsT : DrawAuctionTs.DrawAuctionContracts)
         (s : state),
    is_NaN (minProfitThresholdUsd config) = true ->
    let evsA := new_events (Part000.checkAwardDraw w config context contracts) s in
    dispatched (new_events (Part000.checkStartDraw w config context contracts) s) = false
    /\ dispatched
         (new_events (DrawAuctionTs.checkStartDraw wt config contextT contractsT) s) = false
    /\ dispatched
         (new_events (DrawAuctionTs.checkFinishDraw wt config contextT contractsT) s) = false
    /\ dispatched evsA = match reported_flag "forceAwardDraw" evsA with
                         | Some forced => forced
                         | None => false
                         end
    /\ reported_flag "profitable" evsA <> Some true.
Proof.
  intros config w context contracts wt contextT contractsT s H evsA. subst evsA.
  apply is_NaN_eq in H.
  rewrite (new_events_framed _ s (checkStartDraw_framed w config context contracts)).
  rewrite (new_events_framed _ s (ts_checkStartDraw_framed wt config contextT contractsT)).
  rewrite (new_events_framed _ s (ts_checkFinishDraw_framed wt config contextT contractsT)).
  rewrite (new_events_framed _ s (checkAwardDraw_framed w config context contracts)).
  unfold init.
  split; [ | split; [ | split; [ | split ] ] ].
  - exec_rw ltac:(first [rewrite H | nan_rw]); reflexivity.
  - exec_rw ltac:(first [rewrite H | nan_rw]); reflexivity.
  - exec_rw ltac:(first [rewrite H | nan_rw]); reflexivity.
  - exec_rw ltac:(first [rewrite H | nan_rw | rewrite orb_false_l]);
      first [reflexivity | congruence].
  - exec_rw ltac:(first [rewrite H | nan_rw | rewrite orb_false_l]);
      discriminate.
Qed.

(** Without a threshold the award draw of the scenario is still forced. *)
Lemma nan_threshold_leaves_only_the_forced_award_witness :
  let evs :=
    new_events
      (Part000.checkAwardDraw
         (Scenario.world000 (Some Part000.Award) true None 4%float)
         config_without_threshold (Scenario.context000 (Some Part000.Award) true)
         Scenario.contracts000) init in
  dispatched evs = true /\ reported_flag "profitable" evs <> Some true.
Proof.
  pose proof (nan_threshold_leaves_only_the_forced_award config_without_threshold
       (Scenario.world000 (Some Part000.Award) true None 4%float)
       (Scenario.context000 (Some Part000.Award) true) Scenario.contracts000
       (Scenario.worldTs (Some DrawAuctionTs.Finish) 12%float (Some 200000%Z) 3%float)
       (Scenario.contextTs (Some DrawAuctionTs.Finish) 12%float)
       Scenario.contractsTs init eq_refl) as H.
  cbv zeta in H. intros evs. subst evs.
  split; [ | exact (proj2 (proj2 (proj2 (proj2 H))))].
  rewrite (proj1 (proj2 (proj2 (proj2 H)))). reflexivity.
Defined.

(** ** Requests to the provider *)

(** X9. The start-draw check of drawAuction.ts calls
    [getStartDrawEstimatedGasLimit], a name the file neither defines nor
    imports, in both of its branches: whatever the contracts, the snapshot
    and the collaborators' answers, the check ends in a ReferenceError before
    anything is asked of the provider, priced or sent, and so does every
    cycle whose snapshot says Start. *)
Theorem ts_start_draw_raises_reference_error :
  forall (wt : DrawAuctionTs.World) (config : DrawAuctionConfig)
         (contextT : DrawAuctionTs.DrawAuctionContext)
         (contractsT : DrawAuctionTs.DrawAuctionContracts) (s : state),
    let evs := new_events (DrawAuctionTs.checkStartDraw wt config contextT contractsT) s in
    let not_defined :=
      ReferenceError "getStartDrawEstimatedGasLimit is not defined" in
    fst (DrawAuctionTs.checkStartDraw wt config contextT contractsT s) =
      Thrown not_defined
    /\ estimates evs = [] /\ gas_price_requests evs = []
    /\ conversions evs = [] /\ sends evs = []
    /\ reported_profit evs = None
    /\ (DrawAuctionTs.drawAuctionState (DrawAuctionTs.snapshot wt)
          = Some DrawAuctionTs.Start ->
        fst (DrawAuctionTs.runDrawAuction wt config s) = Thrown not_defined
        /\ dispatched (new_events (DrawAuctionTs.runDrawAuction wt config) s) = false).
Proof.
  intros wt config contextT contractsT s evs not_defined. subst evs not_defined.
  rewrite (new_events_framed _ s (ts_checkStartDraw_framed wt config contextT contractsT)).
  rewrite (framed_outcome _ s (ts_checkStartDraw_framed wt config contextT contractsT)).
  rewrite (new_events_framed _ s (ts_runDrawAuction_framed wt config)).
  rewrite (framed_outcome _ s (ts_runDrawAuction_framed wt config)).
  unfold init.
  split; [ | split; [ | split; [ | split; [ | split; [ | split ] ] ] ] ];
    try (exec; reflexivity).
  intros E. exec_rw ltac:(rewrite E); split; reflexivity.
Qed.

(** The profitable start draw of the scenario (reward $12, gas $3, RngWitnet
    deployed) ends in the ReferenceError. *)
Lemma ts_start_draw_raises_reference_error_witness :
  fst (DrawAuctionTs.runDrawAuction
         (Scenario.worldTs (Some DrawAuctionTs.Start) 12%float (Some 200000%Z) 3%float)
         Scenario.config init) =
  Thrown (ReferenceError "getStartDrawEstimatedGasLimit is not defined").
Proof.
  exact (proj1 (proj2 (proj2 (proj2 (proj2 (proj2 (proj2
    (ts_start_draw_raises_reference_error
       (Scenario.worldTs (Some DrawAuctionTs.Start) 12%float (Some 200000%Z) 3%float)
       Scenario.config (Scenario.contextTs (Some DrawAuctionTs.Start) 12%float)
       Scenario.contractsTs init)))))) eq_refl)).
Defined.

(** X10. part_000 asks for exactly one gas estimate in every start-draw
    check. The finish draw of drawAuction.ts asks once to price the call and
    a second time, for the same call, exactly when the verdict of its profit
    table is true, before it sends. When that second request is made and
    rejected, the check ends in a TypeError (.toString on undefined), and
    nothing is sent. *)
Theorem estimate_is_requested_again_when_sending :
  forall (config : DrawAuctionConfig)
         (w : Part000.World) (context : Part000.DrawAuctionContext)
         (contracts : Part000.DrawAuctionContracts)
         (wt : DrawAuctionTs.World) (contextT : DrawAuctionTs.DrawAuctionContext)
         (contractsT : DrawAuctionTs.DrawAuctionContracts)
         (s : state),
    let evs := new_events (Part000.checkStartDraw w config context contracts) s in
    let evsF := new_events (DrawAuctionTs.checkFinishDraw wt config contextT contractsT) s in
    let c := ts_finishDrawEstimatedCall config contractsT in
    estimates evs = [EstimateGas (startDrawCall config context contracts)]
    /\ estimates evsF =
         EstimateGas c ::
           match reported_profit evsF with
           | Some (_, true) => [EstimateGas c]
           | _ => []
           end
    /\ (rpc_estimateGasAgain (DrawAuctionTs.rpc wt) c = None ->
        sends evsF = []
        /\ (estimates evsF = [EstimateGas c; EstimateGas c] ->
            fst (DrawAuctionTs.checkFinishDraw wt config contextT contractsT s) =
              Thrown (TypeError
                        "Cannot read properties of undefined (reading 'toString')"))).
Proof.
  intros config w context contracts wt contextT contractsT s evs evsF c.
  subst evs evsF c.
  rewrite (new_events_framed _ s (checkStartDraw_framed w config context contracts)).
  rewrite (new_events_framed _ s (ts_checkFinishDraw_framed wt config contextT contractsT)).
  rewrite (framed_outcome _ s (ts_checkFinishDraw_framed wt config contextT contractsT)).
  unfold startDrawCall, ts_finishDrawEstimatedCall, init.
  split; [ | split ].
  - exec; reflexivity.
  - exec; reflexivity.
  - intros H. exec; try congruence;
      (split; [reflexivity | ]); cbn; intros Hp; try discriminate Hp; reflexivity.
Qed.

(** The profitable finish draw of the scenario with a provider that rejects
    the estimate when it is requested again: two requests, a TypeError, and
    nothing sent. *)
Lemma estimate_is_requested_again_when_sending_witness :
  let wt :=
    {| DrawAuctionTs.resolved := Scenario.contractsTs;
       DrawAuctionTs.snapshot := Scenario.contextTs (Some DrawAuctionTs.Finish) 12%float;
       DrawAuctionTs.rpc := rejecting_again (Scenario.stub (Some 200000%Z) 3%float) |} in
  let contextT := Scenario.contextTs (Some DrawAuctionTs.Finish) 12%float in
  let run := DrawAuctionTs.checkFinishDraw wt Scenario.config contextT Scenario.contractsTs in
  let c := ts_finishDrawEstimatedCall Scenario.config Scenario.contractsTs in
  estimates (new_events run init) = [EstimateGas c; EstimateGas c]
  /\ sends (new_events run init) = []
  /\ fst (run init) =
       Thrown (TypeError "Cannot read properties of undefined (reading 'toString')").
Proof.
  intros wt contextT run c.
  pose proof (estimate_is_requested_again_when_sending Scenario.config
                (Scenario.world000 (Some Part000.Start) false (Some 200000%Z) 3%float)
                (Scenario.context000 (Some Part000.Start) false) Scenario.contracts000
                wt contextT Scenario.contractsTs init) as H.
  cbv zeta in H. fold run in H. fold c in H.
  destruct H as [_ [H2 H3]].
  specialize (H3 eq_refl). destruct H3 as [H3 H4].
  assert (E : estimates (new_events run init) = [EstimateGas c; EstimateGas c])
    by (rewrite H2; reflexivity).
  split; [exact E | split ].
  - exact H3.
  - exact (H4 E).
Defined.

(** X11. No version sends a transaction it has not priced: in every run,
    each transaction handed to the relay comes after a fee conversion was
    asked for that same populated call. *)
Theorem nothing_is_sent_unpriced :
  forall (w : Part000.World) (wt : DrawAuctionTs.World)
         (config : DrawAuctionConfig) (s : state),
    sent_after_priced [] (new_events (Part000.runDrawAuction w config) s)
    /\ sent_after_priced [] (new_events (DrawAuctionTs.runDrawAuction wt config) s).
Proof.
  intros w wt config s.
  rewrite (new_events_framed _ s (runDrawAuction_framed w config)).
  rewrite (new_events_framed _ s (ts_runDrawAuction_framed wt config)).
  unfold init. split.
  - destruct (Part000.drawAuctionState (Part000.snapshot w)) as [[ | ] | ] eqn:E;
      exec_rw ltac:(rewrite zero_is_zero); cbn; intuition (auto with core).
  - destruct (DrawAuctionTs.drawAuctionState (DrawAuctionTs.snapshot wt))
      as [[ | ] | ] eqn:E;
      exec_rw ltac:(rewrite zero_is_zero); cbn; intuition (auto with core).
Qed.

(** ** Transforming parameters that carry no value *)

Section MissingValue.

Lemma obj_get_missing (k : string) (o : object) :
  ~ In k (obj_keys o) -> obj_get k o = VUndefined.
Proof.
  induction o as [ | [k0 v] o IH]; simpl; intros H; [reflexivity | ].
  destruct (String.eqb k k0) eqn:E.
  - apply String.eqb_eq in E. subst k0. exfalso. apply H. now left.
  - apply IH. intros Hin. apply H. now right.
Qed.

Lemma obj_delete_missing (k : string) (o : object) :
  ~ In k (obj_keys o) -> obj_delete k o = o.
Proof.
  induction o as [ | [k0 v] o IH]; simpl; intros H; [reflexivity | ].
  destruct (String.eqb k k0) eqn:E.
  - apply String.eqb_eq in E. subst k0. exfalso. apply H. now left.
  - f_equal. apply IH. intros Hin. apply H. now right.
Qed.

Lemma obj_keys_delete_free (k : string) (o : object) :
  ~ In k (obj_keys (obj_delete k o)).
Proof.
  induction o as [ | [k0 v] o IH]; simpl; [tauto | ].
  destruct (String.eqb k k0) eqn:E; [exact IH | ].
  simpl. intros [H | H]; [ | exact (IH H)].
  subst k0. rewrite String.eqb_refl in E. discriminate E.
Qed.

End MissingValue.

(** X12. Applied to a parameters object that has no [value] property, the
    transform functions return [undefined] as the value and a copy equal to
    the object; in particular, transforming the copy that a first transform
    returned gives [undefined] and the same properties again. *)
Theorem transform_without_value_returns_undefined :
  forall (txParams : loc) (o : object) (s : state),
    nth_error (store s) txParams = Some o ->
    (~ In "value" (obj_keys o) ->
     DrawAuctionTs.transformRngWitnetStartDrawTxParams txParams s =
       (Returned (VUndefined, List.length (store s)),
        {| store := store s ++ [o]; trace := trace s |})
     /\ Part000.transformStartDrawTxParams txParams s =
       (Returned (VUndefined, List.length (store s)),
        {| store := store s ++ [o]; trace := trace s |}))
    /\ (forall v copy s1,
          Part000.transformStartDrawTxParams txParams s = (Returned (v, copy), s1) ->
          Part000.transformStartDrawTxParams copy s1 =
            (Returned (VUndefined, S copy),
             {| store := store s1 ++ [obj_delete "value" o]; trace := trace s1 |})).
Proof.
  intros txParams o s H. split.
  - intros Hk.
    rewrite (transformRngWitnetStartDrawTxParams_run txParams o s H).
    rewrite (transformStartDrawTxParams_run txParams o s H).
    rewrite (obj_get_missing _ _ Hk), (obj_delete_missing _ _ Hk).
    split; reflexivity.
  - intros v copy s1 E.
    rewrite (transformStartDrawTxParams_run txParams o s H) in E.
    injection E as <- <- <-.
    rewrite (transformStartDrawTxParams_run (List.length (store s))
               (obj_delete "value" o)).
    + cbn [store trace].
      rewrite (obj_get_missing _ _ (obj_keys_delete_free "value" o)).
      rewrite (obj_delete_missing _ _ (obj_keys_delete_free "value" o)).
      rewrite length_app, Nat.add_comm. reflexivity.
    + cbn [store]. apply nth_error_fresh.
Qed.

(** The RngBlockhash parameters, which have no [value]. *)
Lemma transform_without_value_returns_undefined_witness :
  let o := [ ("drawManagerAddress", VStr "0xDrawManager");
             ("rewardRecipient", VStr "0xRecipient") ] in
  Part000.transformStartDrawTxParams 0 {| store := [o]; trace := [] |} =
    (Returned (VUndefined, 1), {| store := [o; o]; trace := [] |}).
Proof.
  refine (proj2 (proj1 (transform_without_value_returns_undefined 0
    [ ("drawManagerAddress", VStr "0xDrawManager");
      ("rewardRecipient", VStr "0xRecipient") ]
    {| store := [ [ ("drawManagerAddress", VStr "0xDrawManager");
                    ("rewardRecipient", VStr "0xRecipient") ] ];
       trace := [] |} eq_refl) _)).
  cbn. intros [H | [H | H]]; try discriminate H; exact H.
Defined.

(** ** The yield-vault mint-rate loop *)

Section MintRate.

Import YieldVaultMintRate.

Variable rpc : Collaborators.

(** One vault whose transaction the relay accepts: its steps, then the rest
    of the loop. *)
Lemma mint_rate_accepted (c : Contract) (rest : list (option Contract)) (hash : string) :
  rpc_send rpc (mintRateTx c) = Some hash ->
  sent (fst (runYieldVaultMintRate rpc (Some c :: rest))) =
    mintRateTx c :: sent (fst (runYieldVaultMintRate rpc rest))
  /\ gas_limits (fst (runYieldVaultMintRate rpc (Some c :: rest))) =
    200000%float :: gas_limits (fst (runYieldVaultMintRate rpc rest))
  /\ snd (runYieldVaultMintRate rpc (Some c :: rest)) =
    snd (runYieldVaultMintRate rpc rest).
Proof.
  intros H. cbn [runYieldVaultMintRate]. rewrite H.
  destruct (runYieldVaultMintRate rpc rest) as [steps result].
  repeat split.
Qed.

(** The loop over vaults all of which are there and accepted, followed by
    whatever comes next. *)
Lemma mint_rate_prefix (cs : list Contract) (rest : list (option Contract)) :
  (forall c, In c cs -> rpc_send rpc (mintRateTx c) <> None) ->
  sent (fst (runYieldVaultMintRate rpc (map Some cs ++ rest))) =
    map mintRateTx cs ++ sent (fst (runYieldVaultMintRate rpc rest))
  /\ gas_limits (fst (runYieldVaultMintRate rpc (map Some cs ++ rest))) =
    repeat 200000%float (List.length cs)
      ++ gas_limits (fst (runYieldVaultMintRate rpc rest))
  /\ snd (runYieldVaultMintRate rpc (map Some cs ++ rest)) =
    snd (runYieldVaultMintRate rpc rest).
Proof.
  induction cs as [ | c cs IH]; intros H.
  - repeat split.
  - destruct (rpc_send rpc (mintRateTx c)) as [hash | ] eqn:E.
    + destruct (mint_rate_accepted c (map Some cs ++ rest) hash E) as (A & B & C).
      destruct IH as (IA & IB & IC).
      { intros c' Hc'. apply H. now right. }
      cbn [map app List.length repeat].
      rewrite A, B, C, IA, IB, IC. repeat split.
    + exfalso. apply (H c); [now left | exact E].
Qed.

End MintRate.

(** X13. When the mint-rate run ends without an error, every slot held a
    contract and exactly one mintRate transaction per vault was handed to
    the relay, in the order of the vaults, each with a gas limit of 200,000. *)
Theorem mint_rate_success_covers_every_vault :
  forall (rpc : Collaborators) (vaults : list (option Contract)),
    snd (YieldVaultMintRate.runYieldVaultMintRate rpc vaults) = None ->
    exists cs : list Contract,
      vaults = map Some cs
      /\ YieldVaultMintRate.sent
           (fst (YieldVaultMintRate.runYieldVaultMintRate rpc vaults)) =
         map YieldVaultMintRate.mintRateTx cs
      /\ YieldVaultMintRate.gas_limits
           (fst (YieldVaultMintRate.runYieldVaultMintRate rpc vaults)) =
         repeat 200000%float (List.length cs).
Proof.
  intros rpc vaults. induction vaults as [ | [c | ] vaults IH]; intros H.
  - exists []. repeat split.
  - cbn [YieldVaultMintRate.runYieldVaultMintRate] in *.
    destruct (rpc_send rpc (YieldVaultMintRate.mintRateTx c)) as [hash | ];
      [ | discriminate H].
    destruct (YieldVaultMintRate.runYieldVaultMintRate rpc vaults) as [steps result].
    cbn [fst snd] in *.
    destruct (IH H) as (cs & -> & A & B).
    exists (c :: cs). cbn. rewrite A, B. repeat split.
  - discriminate H.
Qed.

Lemma mint_rate_success_covers_every_vault_witness :
  exists cs : list Contract,
    [Some {| address := "0xVaultA" |}; Some {| address := "0xVaultB" |}] = map Some cs
    /\ YieldVaultMintRate.sent
         (fst (YieldVaultMintRate.runYieldVaultMintRate
                 (Scenario.stub None 3%float)
                 [Some {| address := "0xVaultA" |}; Some {| address := "0xVaultB" |}])) =
       map YieldVaultMintRate.mintRateTx cs
    /\ YieldVaultMintRate.gas_limits
         (fst (YieldVaultMintRate.runYieldVaultMintRate
                 (Scenario.stub None 3%float)
                 [Some {| address := "0xVaultA" |}; Some {| address := "0xVaultB" |}])) =
       repeat 200000%float (List.length cs).
Proof.
  exact (mint_rate_success_covers_every_vault (Scenario.stub None 3%float)
           [Some {| address := "0xVaultA" |}; Some {| address := "0xVaultB" |}]
           eq_refl).
Defined.

(** X14. The mint-rate loop stops at the first slot without a contract:
    the vaults before it have had their transaction sent, the vaults after
    it are never reached, and the run ends with [Contract Unavailable]. *)
Theorem mint_rate_stops_at_missing_vault :
  forall (rpc : Collaborators) (cs : list Contract) (rest : list (option Contract)),
    (forall c, In c cs -> rpc_send rpc (YieldVaultMintRate.mintRateTx c) <> None) ->
    let run := YieldVaultMintRate.runYieldVaultMintRate rpc (map Some cs ++ None :: rest) in
    snd run = Some YieldVaultMintRate.ContractUnavailable
    /\ YieldVaultMintRate.sent (fst run) = map YieldVaultMintRate.mintRateTx cs.
Proof.
  intros rpc cs rest H run. subst run.
  destruct (mint_rate_prefix rpc cs (None :: rest) H) as (A & _ & C).
  rewrite A, C. cbn. rewrite app_nil_r. split; reflexivity.
Qed.

Lemma mint_rate_stops_at_missing_vault_witness :
  YieldVaultMintRate.sent
    (fst (YieldVaultMintRate.runYieldVaultMintRate (Scenario.stub None 3%float)
            [Some {| address := "0xVaultA" |}; None; Some {| address := "0xVaultB" |}])) =
  [YieldVaultMintRate.mintRateTx {| address := "0xVaultA" |}].
Proof.
  refine (proj2 (mint_rate_stops_at_missing_vault (Scenario.stub None 3%float)
            [ {| address := "0xVaultA" |} ] [Some {| address := "0xVaultB" |}] _)).
  intros c Hc. discriminate.
Defined.

(** X15. The mint-rate loop stops at the first transaction the relay
    refuses: that transaction and those of the vaults before it were handed
    over, the vaults after it are never reached, and the run ends with the
    relay's error wrapped in a new error. *)
Theorem mint_rate_stops_at_refused_submission :
  forall (rpc : Collaborators) (cs : list Contract) (c : Contract)
         (rest : list (option Contract)),
    (forall c', In c' cs -> rpc_send rpc (YieldVaultMintRate.mintRateTx c') <> None) ->
    rpc_send rpc (YieldVaultMintRate.mintRateTx c) = None ->
    let run := YieldVaultMintRate.runYieldVaultMintRate rpc
                 (map Some cs ++ Some c :: rest) in
    snd run = Some (YieldVaultMintRate.Wrapped (Rejected "sendPopulatedTx"))
    /\ YieldVaultMintRate.sent (fst run) =
         map YieldVaultMintRate.mintRateTx (cs ++ [c]).
Proof.
  intros rpc cs c rest H Hc run. subst run.
  destruct (mint_rate_prefix rpc cs (Some c :: rest) H) as (A & _ & C).
  rewrite A, C. cbn [YieldVaultMintRate.runYieldVaultMintRate]. rewrite Hc.
  cbn. rewrite map_app. split; reflexivity.
Qed.

Lemma mint_rate_stops_at_refused_submission_witness :
  snd (YieldVaultMintRate.runYieldVaultMintRate
         (refusing (Scenario.stub None 3%float))
         [Some {| address := "0xVaultA" |}; Some {| address := "0xVaultB" |}]) =
  Some (YieldVaultMintRate.Wrapped (Rejected "sendPopulatedTx")).
Proof.
  refine (proj1 (mint_rate_stops_at_refused_submission
            (refusing (Scenario.stub None 3%float)) []
            {| address := "0xVaultA" |} [Some {| address := "0xVaultB" |}] _ eq_refl)).
  intros c' [].
Defined.
